(** * The ceres-solver recipe (recipes/ceres-solver/all/conanfile.py)

    A shallow embedding of the recipe class [CeressolverConan] and of the
    few package-manager helpers its methods call, followed by the
    properties of the recipe's option resolution, validation, build-flag
    translation, package identity and artifact descriptor. *)

From Stdlib Require Import NArith Ascii.
From stdpp Require Import gmap strings list fin_maps.

Local Open Scope string_scope.

(** ** Helpers of the package manager used by the recipe

    The recipe imports these from the [conan] package; they are modelled
    here from their behaviour on the values the recipe passes to them. *)
Module Conan.

(** *** [conan.tools.scm.Version]

    A version is its dot-separated items. Only versions whose items are
    all decimal numbers are modelled (the recipe's own versions and its
    thresholds are such); pre-release and build qualifiers are not. *)
Definition Version : Type := list N.

Definition digit_of (c : ascii) : option N :=
  let n := N_of_ascii c in
  if ((48 <=? n) && (n <=? 57))%N then Some (n - 48)%N else None.

(** [items_of s cur acc]: [cur] is the item being read, [acc] the items
    already read, most recent first. *)
Fixpoint items_of (s : string) (cur : option N) (acc : list N)
  : option (list N) :=
  match s with
  | EmptyString =>
      match cur with
      | Some n => Some (rev (n :: acc))
      | None => None
      end
  | String c s' =>
      if Ascii.eqb c "."%char then
        match cur with
        | Some n => items_of s' None (n :: acc)
        | None => None
        end
      else
        match digit_of c with
        | Some d => items_of s' (Some (10 * default 0 cur + d))%N acc
        | None => None
        end
  end.

Definition parse (s : string) : option Version := items_of s None [].

(** [V "2.2.0"] is the version a string literal of the recipe denotes. *)
Definition V (s : string) : Version := default [] (parse s).

(** The items without the trailing zeros ([_nonzero_items]). *)
Fixpoint nonzero_items (l : list N) : list N :=
  match l with
  | [] => []
  | x :: l' =>
      match nonzero_items l' with
      | [] => if (x =? 0)%N then [] else [x]
      | r => x :: r
      end
  end.

(** Python's ordering of tuples: the first differing item decides, and
    a proper prefix is smaller. *)
Fixpoint tuple_lt (a b : list N) : bool :=
  match a, b with
  | _, [] => false
  | [], _ :: _ => true
  | x :: a', y :: b' =>
      if (x <? y)%N then true
      else if (y <? x)%N then false
      else tuple_lt a' b'
  end.

(** [Version.__lt__], and [>=] as [functools.total_ordering] derives it. *)
Definition lt (a b : Version) : bool :=
  tuple_lt (nonzero_items a) (nonzero_items b).
Definition ge (a b : Version) : bool := negb (lt a b).

Global Arguments V : simpl never.
Global Arguments lt : simpl never.
Global Arguments ge : simpl never.

(** *** Settings *)
Record Settings : Type := {
  os : string;
  os_version : option string;
  arch : string;
  compiler : string;
  compiler_version : Version;
  compiler_cppstd : option string;
  compiler_libcxx : option string;
  compiler_runtime : option string;
  build_type : string;
}.

(** [conan.tools.apple.is_apple_os] *)
Definition is_apple_os (s : Settings) : bool :=
  bool_decide (os s ∈ ["Macos"; "iOS"; "watchOS"; "tvOS"; "visionOS"]).

(** [conan.tools.microsoft.is_msvc] *)
Definition is_msvc (s : Settings) : bool :=
  bool_decide (compiler s ∈ ["Visual Studio"; "msvc"]).

(** [str.find]-style containment of ["MT"], as used on the runtime of
    the legacy compiler name. *)
Fixpoint contains_MT (s : string) : bool :=
  match s with
  | String "M"%char (String "T"%char _) => true
  | String _ s' => contains_MT s'
  | EmptyString => false
  end.

(** [conan.tools.microsoft.is_msvc_static_runtime]: the runtime flag of
    [msvc] is MT for the [static] runtime; [Visual Studio] carries the
    flag itself. *)
Definition is_msvc_static_runtime (s : Settings) : bool :=
  is_msvc s &&
  match compiler_runtime s with
  | Some rt =>
      if String.eqb (compiler s) "msvc" then String.eqb rt "static"
      else contains_MT rt
  | None => false
  end.

(** [conan.tools.build.stdcpp_library] *)
Definition stdcpp_library (s : Settings) : option string :=
  match compiler_libcxx s with
  | Some l =>
      if bool_decide (l ∈ ["libstdc++"; "libstdc++11"]) then Some "stdc++"
      else if String.eqb l "libc++" then Some "c++"
      else if String.eqb l "c++_shared" then Some "c++_shared"
      else if String.eqb l "c++_static" then Some "c++_static"
      else None
  | None => None
  end.

(** *** The language-standard comparison of [check_min_cppstd] *)

(** [str.replace("gnu", "")] *)
Fixpoint extract_cpp_version (s : string) : string :=
  match s with
  | String "g"%char (String "n"%char (String "u"%char rest)) =>
      extract_cpp_version rest
  | String c s' => String c (extract_cpp_version s')
  | EmptyString => EmptyString
  end.

Definition add_millennium (c : string) : string :=
  if String.eqb c "98" then "19" +:+ c else "20" +:+ c.

(** [cppstd_lower current required]: the current standard is older than
    the required one (the years are compared as strings). *)
Definition cppstd_lower (current required : string) : bool :=
  String.ltb (add_millennium (extract_cpp_version current))
             (add_millennium required).

(** [os.path.join] on a POSIX host. *)
Fixpoint path_join (parts : list string) : string :=
  match parts with
  | [] => ""
  | [p] => p
  | p :: ps => p +:+ "/" +:+ path_join ps
  end.

End Conan.

Import Conan.

(** ** Data model *)

(** The values an option of the recipe can take. *)
Inductive OptVal : Type := OTrue | OFalse | ODeprecated.

Global Instance OptVal_eq_dec : EqDecision OptVal.
Proof. solve_decision. Defined.

(** Truth value of an option in a condition ([if self.options.x:]). *)
Definition truthy (v : OptVal) : bool :=
  match v with
  | OFalse => false
  | OTrue | ODeprecated => true
  end.

(** A requirement declared with [self.requires]. *)
Record Requirement : Type := {
  ref : string;
  transitive_headers : bool;
  transitive_libs : bool;
}.

(** A value of a [set_property] call. *)
Inductive PropVal : Type :=
| PStr (s : string)
| PList (l : list string).

(** The part of a [cpp_info] component the recipe writes. *)
Module Component.
Record t : Type := {
  libs : list string;
  includedirs : list string;
  system_libs : list string;
  frameworks : list string;
  requires : list string;
  build_modules : gmap string (list string);
  properties : gmap string PropVal;
}.

(** A component as [cpp_info.components] creates it on first access. *)
Definition fresh : t := {|
  libs := [];
  includedirs := ["include"];
  system_libs := [];
  frameworks := [];
  requires := [];
  build_modules := ∅;
  properties := ∅;
|}.
End Component.

Module CppInfo.
Record t : Type := {
  properties : gmap string PropVal;
  names : gmap string string;
  components : gmap string Component.t;
}.

Definition fresh : t :=
  {| properties := ∅; names := ∅; components := ∅ |}.
End CppInfo.

(** [self.info]: what the package id is computed from. *)
Module Info.
Record t : Type := {
  settings : Settings;
  options : gmap string OptVal;
}.
End Info.

(** A value assigned to a variable of the CMake toolchain. *)
Inductive Value : Type :=
| VBool (b : bool)
| VStr (s : string)
| VOption (v : OptVal)
| VNone.

(** The recipe instance, [self]. *)
Record ConanFile : Type := {
  version : Version;
  settings : Settings;
  options : gmap string OptVal;
  output : list string;
  requires : list Requirement;
  tool_requires : list string;
  info : Info.t;
  cpp_info : CppInfo.t;
}.

Definition name : string := "ceres-solver".

(** ** Exceptions and the monad of the recipe's methods *)

Inductive Error : Type :=
| ConanException
| ConanInvalidConfiguration.

Inductive Result (A : Type) : Type :=
| Ok (a : A) (self : ConanFile)
| Raise (e : Error).
Arguments Ok {A} a self.
Arguments Raise {A} e.

(** A method reads and updates [self] and returns or raises. *)
Definition M (A : Type) : Type := ConanFile → Result A.

Definition ret {A} (a : A) : M A := λ self, Ok a self.
Definition raise {A} (e : Error) : M A := λ _, Raise e.
Definition bind {A B} (m : M A) (k : A → M B) : M B :=
  λ self,
    match m self with
    | Ok a self' => k a self'
    | Raise e => Raise e
    end.

Notation "'let*' x ':=' c 'in' k" := (bind c (λ x, k))
  (at level 10, x name, c at level 100, k at level 200, only parsing).
Notation "c ';;' k" := (bind c (λ _, k))
  (at level 100, k at level 200, right associativity, only parsing).

(** [self.version] and [self.settings] *)
Definition get_version : M Version := λ self, Ok (version self) self.
Definition get_settings : M Settings := λ self, Ok (settings self) self.
Definition when (b : bool) (m : M ()) : M () := if b then m else ret ().

(** *** Options *)

(** [self.options.k]: raises when the option does not exist. *)
Definition option_get (k : string) : M OptVal :=
  λ self,
    match options self !! k with
    | Some v => Ok v self
    | None => Raise ConanException
    end.

(** [self.options.get_safe(k)] *)
Definition get_safe (k : string) : M (option OptVal) :=
  λ self, Ok (options self !! k) self.

(** [self.options.get_safe(k, d)] *)
Definition get_safe_default (k : string) (d : OptVal) : M OptVal :=
  λ self, Ok (default d (options self !! k)) self.

Definition set_options (o : gmap string OptVal) (self : ConanFile)
  : ConanFile :=
  {| version := version self; settings := settings self; options := o;
     output := output self; requires := requires self;
     tool_requires := tool_requires self; info := info self;
     cpp_info := cpp_info self |}.

(** [del self.options.k]: raises when the option does not exist. *)
Definition option_del (k : string) : M () :=
  λ self,
    match options self !! k with
    | Some _ => Ok () (set_options (delete k (options self)) self)
    | None => Raise ConanException
    end.

(** [self.options.rm_safe(k)] *)
Definition rm_safe (k : string) : M () :=
  λ self, Ok () (set_options (delete k (options self)) self).

(** *** Output, requirements, info *)

(** [self.output.warning(msg)] *)
Definition warning (msg : string) : M () :=
  λ self,
    Ok () {| version := version self; settings := settings self;
             options := options self; output := output self ++ [msg];
             requires := requires self;
             tool_requires := tool_requires self; info := info self;
             cpp_info := cpp_info self |}.

(** [self.requires(ref, ...)] *)
Definition add_requires (r : Requirement) : M () :=
  λ self,
    Ok () {| version := version self; settings := settings self;
             options := options self; output := output self;
             requires := requires self ++ [r];
             tool_requires := tool_requires self; info := info self;
             cpp_info := cpp_info self |}.

(** [self.tool_requires(ref)] *)
Definition add_tool_requires (r : string) : M () :=
  λ self,
    Ok () {| version := version self; settings := settings self;
             options := options self; output := output self;
             requires := requires self;
             tool_requires := tool_requires self ++ [r]; info := info self;
             cpp_info := cpp_info self |}.

Definition set_info (i : Info.t) (self : ConanFile) : ConanFile :=
  {| version := version self; settings := settings self;
     options := options self; output := output self;
     requires := requires self; tool_requires := tool_requires self;
     info := i; cpp_info := cpp_info self |}.

(** [del self.info.options.k] *)
Definition info_option_del (k : string) : M () :=
  λ self,
    match Info.options (info self) !! k with
    | Some _ =>
        Ok () (set_info {| Info.settings := Info.settings (info self);
                           Info.options := delete k (Info.options (info self)) |}
                        self)
    | None => Raise ConanException
    end.

(** *** The descriptor *)

Definition set_cpp_info (c : CppInfo.t) (self : ConanFile) : ConanFile :=
  {| version := version self; settings := settings self;
     options := options self; output := output self;
     requires := requires self; tool_requires := tool_requires self;
     info := info self; cpp_info := c |}.

(** [self.cpp_info.set_property(k, v)] *)
Definition set_property (k : string) (v : PropVal) : M () :=
  λ self,
    let c := cpp_info self in
    Ok () (set_cpp_info
             {| CppInfo.properties := <[k := v]> (CppInfo.properties c);
                CppInfo.names := CppInfo.names c;
                CppInfo.components := CppInfo.components c |} self).

(** [self.cpp_info.names[k] = v] *)
Definition set_name (k v : string) : M () :=
  λ self,
    let c := cpp_info self in
    Ok () (set_cpp_info
             {| CppInfo.properties := CppInfo.properties c;
                CppInfo.names := <[k := v]> (CppInfo.names c);
                CppInfo.components := CppInfo.components c |} self).

(** [self.cpp_info.components[k]]: the component, created on first
    access. *)
Definition component (k : string) (c : CppInfo.t) : Component.t :=
  default Component.fresh (CppInfo.components c !! k).

(** An update in place of the component [k]. *)
Definition component_update (k : string) (f : Component.t → Component.t)
  : M () :=
  λ self,
    let c := cpp_info self in
    Ok () (set_cpp_info
             {| CppInfo.properties := CppInfo.properties c;
                CppInfo.names := CppInfo.names c;
                CppInfo.components :=
                  <[k := f (component k c)]> (CppInfo.components c) |} self).

Module Upd.
Import Component.
Definition set_libs (l : list string) (c : t) : t :=
  {| libs := l; includedirs := includedirs c;
     system_libs := system_libs c; frameworks := frameworks c;
     requires := requires c; build_modules := build_modules c;
     properties := properties c |}.
Definition libs_append (x : string) (c : t) : t :=
  set_libs (libs c ++ [x]) c.
Definition includedirs_append (x : string) (c : t) : t :=
  {| libs := libs c; includedirs := includedirs c ++ [x];
     system_libs := system_libs c; frameworks := frameworks c;
     requires := requires c; build_modules := build_modules c;
     properties := properties c |}.
Definition system_libs_append (x : string) (c : t) : t :=
  {| libs := libs c; includedirs := includedirs c;
     system_libs := system_libs c ++ [x]; frameworks := frameworks c;
     requires := requires c; build_modules := build_modules c;
     properties := properties c |}.
Definition frameworks_append (x : string) (c : t) : t :=
  {| libs := libs c; includedirs := includedirs c;
     system_libs := system_libs c; frameworks := frameworks c ++ [x];
     requires := requires c; build_modules := build_modules c;
     properties := properties c |}.
Definition set_requires (l : list string) (c : t) : t :=
  {| libs := libs c; includedirs := includedirs c;
     system_libs := system_libs c; frameworks := frameworks c;
     requires := l; build_modules := build_modules c;
     properties := properties c |}.
Definition requires_append (x : string) (c : t) : t :=
  set_requires (requires c ++ [x]) c.
Definition set_build_modules (k : string) (l : list string) (c : t) : t :=
  {| libs := libs c; includedirs := includedirs c;
     system_libs := system_libs c; frameworks := frameworks c;
     requires := requires c;
     build_modules := <[k := l]> (build_modules c);
     properties := properties c |}.
Definition set_property (k : string) (v : PropVal) (c : t) : t :=
  {| libs := libs c; includedirs := includedirs c;
     system_libs := system_libs c; frameworks := frameworks c;
     requires := requires c; build_modules := build_modules c;
     properties := <[k := v]> (properties c) |}.
End Upd.

(** [str.isdigit] *)
Definition isdigit (s : string) : bool :=
  negb (String.eqb s "") &&
  forallb (λ c, bool_decide (is_Some (digit_of c)))
    (String.list_ascii_of_string s).

(** [conan.tools.build.check_min_cppstd(self, cppstd)] *)
Definition check_min_cppstd (cppstd : string) : M () :=
  let* st := get_settings in
  if negb (isdigit cppstd) then raise ConanException
  else
    match compiler_cppstd st with
    | None => raise ConanInvalidConfiguration
    | Some current =>
        if cppstd_lower current cppstd then raise ConanInvalidConfiguration
        else ret ()
    end.

(** ** The recipe *)

Definition options_decl : gmap string (list OptVal) :=
  list_to_map [
    ("shared", [OTrue; OFalse]);
    ("fPIC", [OTrue; OFalse]);
    ("use_glog", [OTrue; OFalse]);
    ("use_gflags", [OTrue; OFalse; ODeprecated]);
    ("use_custom_blas", [OTrue; OFalse]);
    ("use_eigen_sparse", [OTrue; OFalse]);
    ("use_TBB", [OTrue; OFalse]);
    ("use_CXX11_threads", [OTrue; OFalse]);
    ("use_CXX11", [OTrue; OFalse]);
    ("use_schur_specializations", [OTrue; OFalse]);
    ("use_cuda", [OTrue; OFalse])
  ].

Definition default_options : gmap string OptVal :=
  list_to_map [
    ("shared", OFalse);
    ("fPIC", OTrue);
    ("use_glog", OFalse);
    ("use_gflags", ODeprecated);
    ("use_custom_blas", OTrue);
    ("use_eigen_sparse", OTrue);
    ("use_TBB", OFalse);
    ("use_CXX11_threads", OFalse);
    ("use_CXX11", OFalse);
    ("use_schur_specializations", OTrue);
    ("use_cuda", OFalse)
  ].

Definition _min_cppstd : M string :=
  let* v := get_version in
  if ge v (V "2.2.0") then ret "17"
  else if ge v (V "2.0.0") then ret "14"
  else ret "98".

Definition compilers_minimum_version_table
  : gmap string (gmap string string) :=
  list_to_map [
    ("14", list_to_map [
       ("apple-clang", "5");
       ("clang", "5");
       ("gcc", "5");
       ("msvc", "190");
       ("Visual Studio", "14")
     ]);
    ("17", list_to_map [
       ("apple-clang", "10");
       ("clang", "7");
       ("gcc", "8");
       ("msvc", "191");
       ("Visual Studio", "15")
     ])
  ].

Definition _compilers_minimum_version : M (gmap string string) :=
  let* min_cppstd := _min_cppstd in
  ret (default ∅ (compilers_minimum_version_table !! min_cppstd)).

Definition config_options : M () :=
  let* st := get_settings in
  when (String.eqb (os st) "Windows") (option_del "fPIC");;
  let* v := get_version in
  when (ge v (V "2.0"))
    (option_del "use_TBB";;
     option_del "use_CXX11_threads";;
     option_del "use_CXX11").

Definition configure : M () :=
  let* shared := option_get "shared" in
  when (truthy shared) (rm_safe "fPIC");;
  let* use_gflags := option_get "use_gflags" in
  when (negb (bool_decide (use_gflags = ODeprecated)))
    (warning "use_gflags option is deprecated").

(** Truth value of the result of [get_safe] without a default. *)
Definition truthy_safe (v : option OptVal) : bool :=
  match v with
  | Some v => truthy v
  | None => false
  end.

Definition requirements : M () :=
  add_requires {| ref := "eigen/3.4.0"; transitive_headers := true;
                  transitive_libs := false |};;
  let* use_glog := option_get "use_glog" in
  when (truthy use_glog)
    (add_requires {| ref := "glog/0.6.0"; transitive_headers := true;
                     transitive_libs := true |});;
  let* use_TBB := get_safe "use_TBB" in
  when (truthy_safe use_TBB)
    (add_requires {| ref := "onetbb/2020.3"; transitive_headers := false;
                     transitive_libs := false |}).

Definition package_id : M () := info_option_del "use_gflags".

Definition validate : M () :=
  let* st := get_settings in
  when (match compiler_cppstd st with
        | Some c => negb (String.eqb c "")
        | None => false
        end)
    (let* min_cppstd := _min_cppstd in
     check_min_cppstd min_cppstd);;
  let* table := _compilers_minimum_version in
  let* st := get_settings in
  match table !! compiler st with
  | Some minimum_version =>
      if negb (String.eqb minimum_version "") &&
         lt (compiler_version st) (V minimum_version)
      then raise ConanInvalidConfiguration
      else ret ()
  | None => ret ()
  end.

Definition build_requirements : M () :=
  let* v := get_version in
  when (ge v (V "2.2.0")) (add_tool_requires "cmake/[>=3.21]").

(** [generate] returns the variables of the toolchain it writes
    ([tc.variables], empty when the toolchain is created). The
    dependency files of [CMakeDeps] do not depend on the recipe's code
    and are left out. *)
Definition generate : M (gmap string Value) :=
  let tc : gmap string Value := ∅ in
  let* use_glog := option_get "use_glog" in
  let tc := <["MINIGLOG" := VBool (negb (truthy use_glog))]> tc in
  let tc := <["GFLAGS" := VBool false]> tc in
  let tc := <["SUITESPARSE" := VBool false]> tc in
  let tc := <["LAPACK" := VBool false]> tc in
  let* use_schur_specializations := option_get "use_schur_specializations" in
  let tc := <["SCHUR_SPECIALIZATIONS" := VOption use_schur_specializations]> tc in
  let* use_custom_blas := option_get "use_custom_blas" in
  let tc := <["CUSTOM_BLAS" := VOption use_custom_blas]> tc in
  let* use_eigen_sparse := option_get "use_eigen_sparse" in
  let tc := <["EIGENSPARSE" := VOption use_eigen_sparse]> tc in
  let tc := <["BUILD_TESTING" := VBool false]> tc in
  let tc := <["BUILD_DOCUMENTATION" := VBool false]> tc in
  let tc := <["BUILD_EXAMPLES" := VBool false]> tc in
  let tc := <["BUILD_BENCHMARKS" := VBool false]> tc in
  let* ceres_version := get_version in
  let* tc :=
    if ge ceres_version (V "2.2.0") then
      let* use_cuda := option_get "use_cuda" in
      ret (<["USE_CUDA" := VOption use_cuda]> tc)
    else if ge ceres_version (V "2.1.0") then
      let* use_cuda := option_get "use_cuda" in
      ret (<["CUDA" := VOption use_cuda]> tc)
    else ret tc in
  let tc :=
    if ge ceres_version (V "2.2.0") then <["EIGENMETIS" := VBool false]> tc
    else tc in
  let* st := get_settings in
  let tc :=
    if ge ceres_version (V "2.0.0") then
      let tc := <["PROVIDE_UNINSTALL_TARGET" := VBool false]> tc in
      if is_apple_os st
      then <["ACCELERATESPARSE" := VBool true]> tc
      else tc
    else tc in
  let tc :=
    if lt ceres_version (V "2.2.0") then
      let tc := <["CXSPARSE" := VBool false]> tc in
      if is_msvc st
      then <["MSVC_USE_STATIC_CRT" := VBool (is_msvc_static_runtime st)]> tc
      else tc
    else tc in
  let tc :=
    if lt ceres_version (V "2.1.0") then <["LIB_SUFFIX" := VStr ""]> tc
    else tc in
  let* tc :=
    if lt ceres_version (V "2.0.0") then
      let* use_CXX11 := option_get "use_CXX11" in
      let tc := <["CXX11" := VOption use_CXX11]> tc in
      let tc := <["OPENMP" := VBool false]> tc in
      let* use_TBB := option_get "use_TBB" in
      let tc := <["TBB" := VOption use_TBB]> tc in
      let* use_CXX11_threads := option_get "use_CXX11_threads" in
      ret (<["CXX11_THREADS" := VOption use_CXX11_threads]> tc)
    else ret tc in
  let* st := get_settings in
  let tc :=
    if String.eqb (os st) "iOS" then
      <["IOS_DEPLOYMENT_TARGET" :=
          match os_version st with
          | Some v => VStr v
          | None => VNone
          end]> tc
    else tc in
  ret tc.

Definition _module_variables_file_rel_path : string :=
  path_join ["lib"; "cmake";
             "conan-official-" +:+ name +:+ "-variables.cmake"].

Definition package_info : M () :=
  set_property "cmake_file_name" (PStr "Ceres");;
  set_property "cmake_target_name" (PStr "Ceres::ceres");;
  set_property "cmake_target_aliases" (PList ["ceres"]);;
  set_property "cmake_build_modules"
    (PList [_module_variables_file_rel_path]);;
  let* st := get_settings in
  let libsuffix :=
    if String.eqb (build_type st) "Debug" then "-debug" else "" in
  component_update "ceres" (Upd.set_libs ["ceres" +:+ libsuffix]);;
  let* use_cuda := option_get "use_cuda" in
  when (truthy use_cuda)
    (component_update "ceres"
       (Upd.libs_append ("ceres_cuda_kernels" +:+ libsuffix)));;
  component_update "ceres"
    (Upd.includedirs_append (path_join ["include"; "ceres"]));;
  let* use_glog := option_get "use_glog" in
  when (negb (truthy use_glog))
    (component_update "ceres"
       (Upd.includedirs_append
          (path_join ["include"; "ceres"; "internal"; "miniglog"])));;
  let* st := get_settings in
  (if bool_decide (os st ∈ ["Linux"; "FreeBSD"]) then
     component_update "ceres" (Upd.system_libs_append "m");;
     let* use_CXX11_threads := get_safe_default "use_CXX11_threads" OTrue in
     when (truthy use_CXX11_threads)
       (component_update "ceres" (Upd.system_libs_append "pthread"))
   else if is_apple_os st then
     let* v := get_version in
     when (ge v (V "2"))
       (component_update "ceres" (Upd.frameworks_append "Accelerate"))
   else ret ());;
  component_update "ceres" (Upd.set_requires ["eigen::eigen"]);;
  let* use_glog := option_get "use_glog" in
  when (truthy use_glog)
    (component_update "ceres" (Upd.requires_append "glog::glog"));;
  let* use_TBB := get_safe "use_TBB" in
  when (truthy_safe use_TBB)
    (component_update "ceres" (Upd.requires_append "onetbb::onetbb"));;
  let* shared := option_get "shared" in
  when (negb (truthy shared))
    (let* st := get_settings in
     match stdcpp_library st with
     | Some libcxx =>
         when (negb (String.eqb libcxx ""))
           (component_update "ceres" (Upd.system_libs_append libcxx))
     | None => ret ()
     end);;
  set_name "cmake_find_package" "Ceres";;
  set_name "cmake_find_package_multi" "Ceres";;
  component_update "ceres"
    (Upd.set_build_modules "cmake_find_package"
       [_module_variables_file_rel_path]);;
  component_update "ceres"
    (Upd.set_build_modules "cmake_find_package_multi"
       [_module_variables_file_rel_path]);;
  component_update "ceres"
    (Upd.set_property "cmake_target_name" (PStr "Ceres::ceres")).

(** ** The package folder

    [package] works on the package folder through helpers of the package
    manager. The folder is modelled by its files, a map from the path
    relative to the folder to the content; a folder is there when a file
    is under it. *)

(** [under dir path]: the file [path] is inside the folder [dir]. *)
Definition under (dir path : string) : bool :=
  String.prefix (dir +:+ "/") path.

(** [conan.tools.files.rmdir]: removes the folder and all that is under
    it. *)
Definition rmdir (dir : string) (files : gmap string string)
  : gmap string string :=
  filter (λ x, under dir x.1 = false) files.

(** [conan.tools.files.save]: writes a file, replacing the one there. *)
Definition save (path content : string) (files : gmap string string)
  : gmap string string :=
  <[path := content]> files.

(** [str.lower] on the letters of ASCII. *)
Definition lower_ascii (c : ascii) : ascii :=
  let n := N_of_ascii c in
  if ((65 <=? n) && (n <=? 90))%N then ascii_of_N (n + 32) else c.

Fixpoint lower (s : string) : string :=
  match s with
  | EmptyString => EmptyString
  | String c s' => String (lower_ascii c) (lower s')
  end.

(** [conan.tools.files.copy(self, pattern, src, dst)] for a pattern
    without wildcards, as the recipe's: the pattern is compared with the
    paths relative to [src], without regard to case ([ignore_case] is
    True unless given), so it selects the files of that name in any case
    in [src] itself and none of its subfolders; each goes to [dst] under
    its own name ([keep_path]), over a file already there. No match is
    no error. *)
Definition copy (pattern dst : string) (source files : gmap string string)
  : gmap string string :=
  kmap (String.append (dst +:+ "/"))
       (filter (λ x, lower x.1 = lower pattern) source) ∪ files.

(** [cmake.install()]: the install step of the upstream build puts its
    files, [installed], into the package folder. *)
Definition cmake_install (installed files : gmap string string)
  : gmap string string :=
  installed ∪ files.

Definition newline : string := String "010"%char "".

(** The text that [_create_cmake_module_variables] writes: the literal
    after [textwrap.dedent], with the version in it. *)
Definition module_variables_content (version : string) : string :=
  "set(CERES_FOUND TRUE)" +:+ newline +:+
  "set(CERES_VERSION " +:+ version +:+ ")" +:+ newline +:+
  "if(NOT DEFINED CERES_LIBRARIES)" +:+ newline +:+
  "    set(CERES_LIBRARIES Ceres::ceres)" +:+ newline +:+
  "endif()" +:+ newline.

Definition _create_cmake_module_variables (version module_file : string)
    (files : gmap string string) : gmap string string :=
  save module_file (module_variables_content version) files.

(** [package], from the text of the version, the files of the source
    folder and the files the upstream install step produces. *)
Definition package (version : string) (source installed : gmap string string)
    (files : gmap string string) : gmap string string :=
  let files := copy "LICENSE" (path_join ["licenses"]) source files in
  let files := cmake_install installed files in
  let files := rmdir (path_join ["lib"; "cmake"]) files in
  let files := rmdir "CMake" files in
  _create_cmake_module_variables version _module_variables_file_rel_path
    files.

(** ** Recipe instances *)

(** [allowed k x]: [k] is a declared option and [x] one of its values. *)
Definition allowed (k : string) (x : OptVal) : Prop :=
  x ∈ default [] (options_decl !! k).

Global Instance allowed_dec k x : Decision (allowed k x).
Proof. unfold allowed. apply _. Defined.

(** An option overlay gives declared options values they allow. *)
Definition valid_overlay (overlay : gmap string OptVal) : Prop :=
  map_Forall allowed overlay.

(** The instance the package manager creates for a version, a platform
    and an option overlay: every declared option has the overlay's value,
    or else its default. *)
Definition instantiate (v : Version) (s : Settings)
    (overlay : gmap string OptVal) : ConanFile :=
  {| version := v;
     settings := s;
     options := overlay ∪ default_options;
     output := [];
     requires := [];
     tool_requires := [];
     info := {| Info.settings := s; Info.options := ∅ |};
     cpp_info := CppInfo.fresh |}.

(** The package manager fills [self.info] from the configured instance
    before it calls [package_id]. *)
Definition init_info : M () :=
  λ self,
    Ok () (set_info {| Info.settings := settings self;
                       Info.options := options self |} self).

(** The option resolution: [config_options], then [configure]. *)
Definition resolve_options : M () := config_options;; configure.

(** The descriptor's component. *)
Definition ceres (self : ConanFile) : Component.t :=
  component "ceres" (cpp_info self).

(** The methods of the recipe in the order the package manager calls
    them to build a package; the steps that only run external tools
    ([source], [build], [package]) are left out. *)
Definition create : M () :=
  config_options;;
  configure;;
  requirements;;
  build_requirements;;
  init_info;;
  package_id;;
  validate;;
  generate;;
  package_info.

(** * Vocabulary of the properties *)

(** [wp m Q self]: from [self], the method [m] returns without raising,
    in a result and a state that satisfy [Q]. *)
Definition wp {A} (m : M A) (Q : A → ConanFile → Prop) (self : ConanFile)
  : Prop :=
  match m self with
  | Ok a self' => Q a self'
  | Raise _ => False
  end.

(** What the steps of [package_info] keep, and what they do to the
    component. *)
Record frame (self self' : ConanFile) : Prop := {
  frame_version : version self' = version self;
  frame_settings : settings self' = settings self;
  frame_options : options self' = options self;
}.

(** The option sets [config_options] and [configure] leave. *)
Definition options_after_config (v : Version) (s : Settings)
    (o : gmap string OptVal) : gmap string OptVal :=
  let o := if String.eqb (os s) "Windows" then delete "fPIC" o else o in
  if ge v (V "2.0")
  then delete "use_CXX11" (delete "use_CXX11_threads" (delete "use_TBB" o))
  else o.

Definition options_after_configure (o : gmap string OptVal)
  : gmap string OptVal :=
  if truthy_safe (o !! "shared") then delete "fPIC" o else o.

Definition backend_options : list string :=
  ["use_TBB"; "use_CXX11_threads"; "use_CXX11"].

(** The option resolution of an instance never raises; [resolved] sums up
    the instance it leaves. *)
Record resolved (v : Version) (s : Settings) (ov : gmap string OptVal)
    (r : ConanFile) : Prop := {
  resolved_version : version r = v;
  resolved_settings : settings r = s;
  resolved_options :
    options r =
      options_after_configure
        (options_after_config v s (ov ∪ default_options));
  resolved_output :
    output r =
      if bool_decide ((ov ∪ default_options) !! "use_gflags" = Some ODeprecated)
      then [] else ["use_gflags option is deprecated"];
  resolved_cpp_info : cpp_info r = CppInfo.fresh;
  resolved_requires : requires r = [];
}.

(** Conditional updates of the component. *)
Definition cond (b : bool) (f : Component.t → Component.t)
    (c : Component.t) : Component.t :=
  if b then f c else c.

Definition choose (b : bool) (f g : Component.t → Component.t)
    (c : Component.t) : Component.t :=
  if b then f c else g c.

Definition with_opt {Y} (o : option Y) (f : Y → Component.t → Component.t)
    (g : Component.t → Component.t) (c : Component.t) : Component.t :=
  match o with
  | Some y => f y c
  | None => g c
  end.

(** [runs self0 m f self]: in a state [self] that has the version,
    settings and options of [self0], the steps [m] return without raising
    and keep those; they turn the component [c] into [f c]. *)
Definition runs (self0 : ConanFile) (m : M ())
    (f : Component.t → Component.t) (self : ConanFile) : Prop :=
  frame self0 self →
  wp m (λ _ self', frame self0 self' ∧ ceres self' = f (ceres self)) self.

Definition libsuffix (s : Settings) : string :=
  if String.eqb (build_type s) "Debug" then "-debug" else "".

(** The fields of the component after [package_info], from the fields
    [c] before it. *)
Record described (self : ConanFile) (c c' : Component.t) : Prop := {
  described_libs :
    Component.libs c' =
      ("ceres" +:+ libsuffix (settings self)) ::
      (if truthy_safe (options self !! "use_cuda")
       then ["ceres_cuda_kernels" +:+ libsuffix (settings self)] else []);
  described_includedirs :
    Component.includedirs c' =
      (Component.includedirs c ++
       "include/ceres" ::
       (if truthy_safe (options self !! "use_glog") then []
        else ["include/ceres/internal/miniglog"]))%list;
  described_system_libs :
    Component.system_libs c' =
      (Component.system_libs c ++
       (if bool_decide (os (settings self) ∈ ["Linux"; "FreeBSD"])
        then "m" ::
             (if truthy (default OTrue (options self !! "use_CXX11_threads"))
              then ["pthread"] else [])
        else []) ++
       (if truthy_safe (options self !! "shared") then []
        else match stdcpp_library (settings self) with
             | Some l => if String.eqb l "" then [] else [l]
             | None => []
             end))%list;
  described_requires :
    Component.requires c' =
      ("eigen::eigen" ::
       (if truthy_safe (options self !! "use_glog")
        then ["glog::glog"] else []) ++
       (if truthy_safe (options self !! "use_TBB")
        then ["onetbb::onetbb"] else []))%list;
}.

(** [ends_with suffix s]: the string [s] ends in [suffix]. *)
Fixpoint ends_with (suffix s : string) : bool :=
  String.eqb s suffix ||
  match s with
  | String _ s' => ends_with suffix s'
  | EmptyString => false
  end.

(** [times n m]: the method [m] invoked [n] times in a row. *)
Fixpoint times (n : nat) (m : M ()) : M () :=
  match n with
  | O => ret ()
  | S n => m;; times n m
  end.

(** A Linux platform with gcc, for a given build type. *)
Definition linux_gcc (bt : string) : Settings :=
  {| os := "Linux"; os_version := None; arch := "x86_64";
     compiler := "gcc"; compiler_version := V "11";
     compiler_cppstd := Some "gnu17"; compiler_libcxx := Some "libstdc++11";
     compiler_runtime := None; build_type := bt |}.

Definition eigen : Requirement :=
  {| ref := "eigen/3.4.0"; transitive_headers := true;
     transitive_libs := false |}.
Definition glog : Requirement :=
  {| ref := "glog/0.6.0"; transitive_headers := true;
     transitive_libs := true |}.
Definition onetbb : Requirement :=
  {| ref := "onetbb/2020.3"; transitive_headers := false;
     transitive_libs := false |}.

(** The minimum language standard of a version ([_min_cppstd]). *)
Definition required_cppstd (v : Version) : string :=
  if ge v (V "2.2.0") then "17"
  else if ge v (V "2.0.0") then "14"
  else "98".

(** The overlay of the example. *)
Definition example_overlay : gmap string OptVal :=
  list_to_map [("use_glog", OFalse); ("use_cuda", OTrue)].

(** The language standard set for the compiler is older than the
    required one. *)
Definition cppstd_too_low (self : ConanFile) : bool :=
  match compiler_cppstd (settings self) with
  | Some c =>
      negb (String.eqb c "") &&
      cppstd_lower c (required_cppstd (version self))
  | None => false
  end.

(** The compiler is older than the first version of it that supports the
    required standard, for the compilers the recipe's table lists. *)
Definition compiler_too_old (self : ConanFile) : bool :=
  match
    default ∅
      (compilers_minimum_version_table !! required_cppstd (version self))
      !! compiler (settings self)
  with
  | Some minimum_version =>
      lt (compiler_version (settings self)) (V minimum_version)
  | None => false
  end.

Definition below_minimum (self : ConanFile) : bool :=
  cppstd_too_low self || compiler_too_old self.

(** The variables of the toolchain whose presence depends on the
    version, as [generate] sets them from the options [o]. *)
Record gated (v : Version) (o : gmap string OptVal)
    (tc : gmap string Value) : Prop := {
  gated_USE_CUDA :
    tc !! "USE_CUDA" =
      if ge v (V "2.2.0") then VOption <$> o !! "use_cuda" else None;
  gated_CUDA :
    tc !! "CUDA" =
      if ge v (V "2.2.0") then None
      else if ge v (V "2.1.0") then VOption <$> o !! "use_cuda" else None;
  gated_EIGENMETIS :
    tc !! "EIGENMETIS" =
      if ge v (V "2.2.0") then Some (VBool false) else None;
  gated_PROVIDE_UNINSTALL_TARGET :
    tc !! "PROVIDE_UNINSTALL_TARGET" =
      if ge v (V "2.0.0") then Some (VBool false) else None;
  gated_CXSPARSE :
    tc !! "CXSPARSE" =
      if lt v (V "2.2.0") then Some (VBool false) else None;
  gated_LIB_SUFFIX :
    tc !! "LIB_SUFFIX" = if lt v (V "2.1.0") then Some (VStr "") else None;
  gated_CXX11 :
    tc !! "CXX11" =
      if lt v (V "2.0.0") then VOption <$> o !! "use_CXX11" else None;
  gated_OPENMP :
    tc !! "OPENMP" = if lt v (V "2.0.0") then Some (VBool false) else None;
  gated_TBB :
    tc !! "TBB" =
      if lt v (V "2.0.0") then VOption <$> o !! "use_TBB" else None;
  gated_CXX11_THREADS :
    tc !! "CXX11_THREADS" =
      if lt v (V "2.0.0") then VOption <$> o !! "use_CXX11_threads"
      else None;
}.

(** The names of the variables [generate] assigns for a configuration. *)
Definition variable_names (v : Version) (s : Settings)
    (ov : gmap string OptVal) : option (gset string) :=
  match (resolve_options;; generate) (instantiate v s ov) with
  | Ok tc _ => Some (dom tc)
  | Raise _ => None
  end.

(** [reads_only m]: the method [m] leaves the instance as it is, and its
    outcome is a function of the version, the settings and the options
    alone. *)
Definition reads_only {A} (m : M A) : Prop :=
  ∀ s1 s2, frame s1 s2 →
    match m s1, m s2 with
    | Ok a1 s1', Ok a2 s2' => a1 = a2 ∧ s1' = s1 ∧ s2' = s2
    | Raise e1, Raise e2 => e1 = e2
    | _, _ => False
    end.

(** Two instances that differ in what is not an input of [generate]. *)
Definition configured : ConanFile :=
  instantiate (V "2.2.0") (linux_gcc "Release") example_overlay.

Definition configured_later : ConanFile :=
  {| version := version configured; settings := settings configured;
     options := options configured;
     output := ["use_gflags option is deprecated"];
     requires := [eigen]; tool_requires := ["cmake/[>=3.21]"];
     info := info configured; cpp_info := cpp_info configured |}.

(** The name of the package a reference [name/version] refers to. *)
Fixpoint package_name (ref : string) : string :=
  match ref with
  | EmptyString => EmptyString
  | String c rest =>
      if Ascii.eqb c "/"%char then EmptyString
      else String c (package_name rest)
  end.

(** The target [name::name] by which a component refers to the package of
    a requirement. *)
Definition target_of (r : Requirement) : string :=
  package_name (ref r) +:+ "::" +:+ package_name (ref r).

(** The value [generate] passes for an option. *)
Definition option_value (o : gmap string OptVal) (k : string) : Value :=
  from_option VOption VNone (o !! k).

(** The variables by version range and platform: those of every
    version, then those of each side of the thresholds 2.2.0, 2.1.0 and
    2.0.0, then the one of iOS. *)
Definition variables (v : Version) (s : Settings) (o : gmap string OptVal)
  : gmap string Value :=
  list_to_map
    ([("MINIGLOG", VBool (negb (truthy_safe (o !! "use_glog"))));
      ("GFLAGS", VBool false);
      ("SUITESPARSE", VBool false);
      ("LAPACK", VBool false);
      ("SCHUR_SPECIALIZATIONS", option_value o "use_schur_specializations");
      ("CUSTOM_BLAS", option_value o "use_custom_blas");
      ("EIGENSPARSE", option_value o "use_eigen_sparse");
      ("BUILD_TESTING", VBool false);
      ("BUILD_DOCUMENTATION", VBool false);
      ("BUILD_EXAMPLES", VBool false);
      ("BUILD_BENCHMARKS", VBool false)] ++
     (if ge v (V "2.2.0")
      then [("USE_CUDA", option_value o "use_cuda");
            ("EIGENMETIS", VBool false)]
      else ("CXSPARSE", VBool false) ::
           (if is_msvc s
            then [("MSVC_USE_STATIC_CRT", VBool (is_msvc_static_runtime s))]
            else [])) ++
     (if ge v (V "2.1.0")
      then (if ge v (V "2.2.0") then []
            else [("CUDA", option_value o "use_cuda")])
      else [("LIB_SUFFIX", VStr "")]) ++
     (if ge v (V "2.0.0")
      then ("PROVIDE_UNINSTALL_TARGET", VBool false) ::
           (if is_apple_os s then [("ACCELERATESPARSE", VBool true)]
            else [])
      else [("CXX11", option_value o "use_CXX11");
            ("OPENMP", VBool false);
            ("TBB", option_value o "use_TBB");
            ("CXX11_THREADS", option_value o "use_CXX11_threads")]) ++
     (if String.eqb (os s) "iOS"
      then [("IOS_DEPLOYMENT_TARGET",
             from_option VStr VNone (os_version s))]
      else [])).

(** The compilers of the table. *)
Definition listed_compilers : list string :=
  ["apple-clang"; "clang"; "gcc"; "msvc"; "Visual Studio"].

(** The fields of the component that [described] leaves out. *)
Record described_more (self : ConanFile) (c c' : Component.t) : Prop := {
  described_frameworks :
    Component.frameworks c' =
      (Component.frameworks c ++
       (if negb (bool_decide (os (settings self) ∈ ["Linux"; "FreeBSD"])) &&
           is_apple_os (settings self) && ge (version self) (V "2")
        then ["Accelerate"] else []))%list;
  described_build_modules :
    Component.build_modules c' =
      <["cmake_find_package_multi" := [_module_variables_file_rel_path]]>
        (<["cmake_find_package" := [_module_variables_file_rel_path]]>
           (Component.build_modules c));
  described_properties :
    Component.properties c' =
      <["cmake_target_name" := PStr "Ceres::ceres"]> (Component.properties c);
}.

(** The properties and the legacy names of the descriptor itself. *)
Definition meta (self : ConanFile)
  : gmap string PropVal * gmap string string :=
  (CppInfo.properties (cpp_info self), CppInfo.names (cpp_info self)).

(** [sets m f]: when the steps [m] return, they have turned the
    properties and names [x] of the descriptor into [f x]. *)
Definition sets {A} (m : M A)
    (f : gmap string PropVal * gmap string string →
         gmap string PropVal * gmap string string) : Prop :=
  ∀ self a self', m self = Ok a self' → meta self' = f (meta self).

(** [reader m]: the step [m] leaves the instance as it is. *)
Definition reader {A} (m : M A) : Prop :=
  ∀ self a self', m self = Ok a self' → self' = self.

(** ** The validation in years and major versions

    The property of the specification speaks of language standards and
    of compilers that support them. It is written here on its own
    terms, with the years of the standards and the major versions of
    the compilers as numbers, to be compared with what [validate]
    computes from the recipe's table. *)











(** * Properties *)

(** ** The ordering of versions *)
Section VersionOrder.

Lemma tuple_lt_trans (a b c : list N) :
  tuple_lt a b = true → tuple_lt b c = true → tuple_lt a c = true.
Proof.
  revert b c. induction a as [|x a IH]; intros [|y b] [|z c]; simpl;
    try done.
  destruct (N.ltb_spec x y), (N.ltb_spec y x), (N.ltb_spec y z),
    (N.ltb_spec z y), (N.ltb_spec x z), (N.ltb_spec z x);
    try done; try lia.
  apply IH.
Qed.

Lemma lt_trans (a b c : Version) :
  lt a b = true → lt b c = true → lt a c = true.
Proof. apply tuple_lt_trans. Qed.

(** The thresholds written "2", "2.0" and "2.0.0" are one version. *)
Lemma ge_2_0 (v : Version) : ge v (V "2.0") = ge v (V "2.0.0").
Proof. reflexivity. Qed.

Lemma ge_2 (v : Version) : ge v (V "2") = ge v (V "2.0.0").
Proof. reflexivity. Qed.

Lemma ge_2_2_ge_2_1 (v : Version) :
  ge v (V "2.2.0") = true → ge v (V "2.1.0") = true.
Proof.
  unfold ge. rewrite !negb_true_iff. intros H.
  destruct (lt v (V "2.1.0")) eqn:E; [|done].
  rewrite (lt_trans v (V "2.1.0") (V "2.2.0")) in H; done.
Qed.

Lemma ge_2_1_ge_2_0 (v : Version) :
  ge v (V "2.1.0") = true → ge v (V "2.0.0") = true.
Proof.
  unfold ge. rewrite !negb_true_iff. intros H.
  destruct (lt v (V "2.0.0")) eqn:E; [|done].
  rewrite (lt_trans v (V "2.0.0") (V "2.1.0")) in H; done.
Qed.

Lemma lt_negb_ge (a b : Version) : lt a b = negb (ge a b).
Proof. unfold ge. by rewrite negb_involutive. Qed.

End VersionOrder.

(** ** The model on concrete configurations *)

Example parse_2_2_0 : parse "2.2.0" = Some [2; 2; 0]%N.
Proof. reflexivity. Qed.

Example parse_not_numeric : parse "2.x" = None.
Proof. reflexivity. Qed.

Example version_comparisons :
  (ge (V "2.0") (V "2"), lt (V "2.0.0") (V "2"), lt (V "1.14.0") (V "2.0.0"),
   ge (V "2.1.0") (V "2.2.0"), lt (V "7.5") (V "8"), lt (V "10") (V "8"))
  = (true, false, true, false, true, false).
Proof. reflexivity. Qed.

Example cppstd_comparisons :
  (cppstd_lower "gnu14" "17", cppstd_lower "98" "14",
   cppstd_lower "gnu17" "17", cppstd_lower "20" "17",
   cppstd_lower "gnu98" "98")
  = (true, true, false, false, false).
Proof. reflexivity. Qed.

(** gcc 7 is older than the gcc 8 listed for the standard of 2.2.0. *)
Example validate_gcc_7 :
  validate
    (instantiate (V "2.2.0")
       {| os := "Linux"; os_version := None; arch := "x86_64";
          compiler := "gcc"; compiler_version := V "7.5";
          compiler_cppstd := None; compiler_libcxx := Some "libstdc++11";
          compiler_runtime := None; build_type := "Release" |} ∅)
  = Raise ConanInvalidConfiguration.
Proof. reflexivity. Qed.

(** A standard set below the required one is refused whatever the
    compiler. *)
Example validate_cppstd_14 :
  validate
    (instantiate (V "2.2.0")
       {| os := "Linux"; os_version := None; arch := "x86_64";
          compiler := "gcc"; compiler_version := V "11";
          compiler_cppstd := Some "gnu14";
          compiler_libcxx := Some "libstdc++11";
          compiler_runtime := None; build_type := "Release" |} ∅)
  = Raise ConanInvalidConfiguration.
Proof. reflexivity. Qed.

Example validate_gcc_11 :
  validate configured = Ok () configured.
Proof. reflexivity. Qed.

(** The same old compiler passes for a version below 2.0, which requires
    no more than the standard of 1998. *)
Example validate_gcc_4_for_1_14 :
  let self :=
    instantiate (V "1.14.0")
      {| os := "Linux"; os_version := None; arch := "x86_64";
         compiler := "gcc"; compiler_version := V "4.8";
         compiler_cppstd := Some "98"; compiler_libcxx := Some "libstdc++";
         compiler_runtime := None; build_type := "Release" |} ∅ in
  validate self = Ok () self.
Proof. reflexivity. Qed.

(** The variables of version 2.1.0 with CUDA enabled. *)
Example generate_2_1_0 :
  ∃ self,
    (resolve_options;; generate)
      (instantiate (V "2.1.0") (linux_gcc "Release") example_overlay)
    = Ok (list_to_map
            [("MINIGLOG", VBool true); ("GFLAGS", VBool false);
             ("SUITESPARSE", VBool false); ("LAPACK", VBool false);
             ("SCHUR_SPECIALIZATIONS", VOption OTrue);
             ("CUSTOM_BLAS", VOption OTrue); ("EIGENSPARSE", VOption OTrue);
             ("BUILD_TESTING", VBool false);
             ("BUILD_DOCUMENTATION", VBool false);
             ("BUILD_EXAMPLES", VBool false);
             ("BUILD_BENCHMARKS", VBool false);
             ("CUDA", VOption OTrue);
             ("PROVIDE_UNINSTALL_TARGET", VBool false);
             ("CXSPARSE", VBool false)]) self.
Proof. eexists. vm_compute. reflexivity. Qed.

(** The variables of version 1.14.0 for iOS: the legacy threading
    variables and the deployment target. *)
Example generate_1_14_0_iOS :
  ∃ self,
    (resolve_options;; generate)
      (instantiate (V "1.14.0")
         {| os := "iOS"; os_version := Some "13.0"; arch := "armv8";
            compiler := "apple-clang"; compiler_version := V "13";
            compiler_cppstd := None; compiler_libcxx := Some "libc++";
            compiler_runtime := None; build_type := "Release" |}
         {["use_TBB" := OTrue]})
    = Ok (list_to_map
            [("MINIGLOG", VBool true); ("GFLAGS", VBool false);
             ("SUITESPARSE", VBool false); ("LAPACK", VBool false);
             ("SCHUR_SPECIALIZATIONS", VOption OTrue);
             ("CUSTOM_BLAS", VOption OTrue); ("EIGENSPARSE", VOption OTrue);
             ("BUILD_TESTING", VBool false);
             ("BUILD_DOCUMENTATION", VBool false);
             ("BUILD_EXAMPLES", VBool false);
             ("BUILD_BENCHMARKS", VBool false);
             ("CXSPARSE", VBool false); ("LIB_SUFFIX", VStr "");
             ("CXX11", VOption OFalse); ("OPENMP", VBool false);
             ("TBB", VOption OTrue); ("CXX11_THREADS", VOption OFalse);
             ("IOS_DEPLOYMENT_TARGET", VStr "13.0")]) self.
Proof. eexists. vm_compute. reflexivity. Qed.

(** The descriptor of the example configuration, built twice. *)
Example package_info_twice :
  ∃ self,
    (resolve_options;; package_info;; package_info) configured = Ok () self ∧
    Component.libs (ceres self) = ["ceres"; "ceres_cuda_kernels"] ∧
    Component.system_libs (ceres self) =
      ["m"; "pthread"; "stdc++"; "m"; "pthread"; "stdc++"].
Proof. eexists. split; [vm_compute; reflexivity|]. by split. Qed.

(** ** Reasoning about methods: weakest preconditions *)

Section WP.
Context {A B : Type}.

Lemma wp_elim (m : M A) Q self :
  wp m Q self → ∃ a self', m self = Ok a self' ∧ Q a self'.
Proof. unfold wp. destruct (m self); [eauto | done]. Qed.

Lemma wp_mono (m : M A) (Q Q' : A → ConanFile → Prop) self :
  wp m Q self → (∀ a s, Q a s → Q' a s) → wp m Q' self.
Proof. unfold wp. destruct (m self); [auto | done]. Qed.

Lemma wp_bind (m : M A) (k : A → M B) (Q : B → ConanFile → Prop) self :
  wp m (λ a, wp (k a) Q) self → wp (bind m k) Q self.
Proof. unfold wp, bind. by destruct (m self). Qed.
End WP.

Lemma wp_get_version (Q : Version → ConanFile → Prop) self :
  Q (version self) self → wp get_version Q self.
Proof. done. Qed.

Lemma wp_get_settings (Q : Settings → ConanFile → Prop) self :
  Q (settings self) self → wp get_settings Q self.
Proof. done. Qed.

Lemma wp_option_get k v (Q : OptVal → ConanFile → Prop) self :
  options self !! k = Some v → Q v self → wp (option_get k) Q self.
Proof. unfold wp, option_get. by intros ->. Qed.

Lemma wp_get_safe k (Q : option OptVal → ConanFile → Prop) self :
  Q (options self !! k) self → wp (get_safe k) Q self.
Proof. done. Qed.

Lemma wp_get_safe_default k d (Q : OptVal → ConanFile → Prop) self :
  Q (default d (options self !! k)) self → wp (get_safe_default k d) Q self.
Proof. done. Qed.

(** The steps of [package_info] through the component they update. *)

Lemma frame_refl self : frame self self.
Proof. done. Qed.

Lemma frame_trans s1 s2 s3 : frame s1 s2 → frame s2 s3 → frame s1 s3.
Proof. intros [] []. split; congruence. Qed.

Lemma wp_component_update f (Q : () → ConanFile → Prop) self :
  (∀ self', frame self self' → ceres self' = f (ceres self) → Q () self') →
  wp (component_update "ceres" f) Q self.
Proof.
  intros H. apply H; [done|].
  unfold ceres, component; simpl. by rewrite lookup_insert_eq.
Qed.

Lemma wp_set_property k v (Q : () → ConanFile → Prop) self :
  (∀ self', frame self self' → ceres self' = ceres self → Q () self') →
  wp (set_property k v) Q self.
Proof. intros H. by apply H. Qed.

Lemma wp_set_name k v (Q : () → ConanFile → Prop) self :
  (∀ self', frame self self' → ceres self' = ceres self → Q () self') →
  wp (set_name k v) Q self.
Proof. intros H. by apply H. Qed.

(** ** Option resolution *)

(** Close the goals [k ∉ l] and [k ∈ l] for a given option name and a
    given list of option names. *)
Ltac not_listed :=
  unfold backend_options; rewrite !not_elem_of_cons;
  repeat split; try done; apply not_elem_of_nil.

Ltac listed :=
  unfold backend_options; apply list_elem_of_In; simpl; tauto.

Lemma instantiate_declared v s ov k :
  is_Some (default_options !! k) →
  is_Some (options (instantiate v s ov) !! k).
Proof. intros H. simpl. rewrite lookup_union_is_Some. by right. Qed.

Lemma config_options_run self :
  (∀ k, k ∈ "fPIC" :: backend_options → is_Some (options self !! k)) →
  config_options self =
    Ok () (set_options
             (options_after_config (version self) (settings self)
                (options self)) self).
Proof.
  intros Hd. destruct self as [v s o out req treq inf ci]; simpl in *.
  assert (is_Some (o !! "fPIC")) as [x1 H1] by (apply Hd; listed).
  assert (is_Some (o !! "use_TBB")) as [x2 H2] by (apply Hd; listed).
  assert (is_Some (o !! "use_CXX11_threads")) as [x3 H3]
    by (apply Hd; listed).
  assert (is_Some (o !! "use_CXX11")) as [x4 H4] by (apply Hd; listed).
  unfold config_options, options_after_config, bind, when, get_settings,
    get_version, option_del, ret, set_options; simpl.
  destruct (String.eqb (os s) "Windows"), (ge v (V "2.0")) eqn:Hge; simpl;
    rewrite ?H1; simpl; rewrite ?Hge; simpl;
    rewrite ?lookup_delete_ne by done;
    rewrite ?H2; simpl; rewrite ?lookup_delete_ne by done;
    rewrite ?H3; simpl; rewrite ?lookup_delete_ne by done;
    rewrite ?H4; simpl; done.
Qed.

Lemma configure_run self sh g :
  options self !! "shared" = Some sh →
  options self !! "use_gflags" = Some g →
  configure self =
    Ok () {| version := version self; settings := settings self;
             options := options_after_configure (options self);
             output :=
               output self ++
               (if bool_decide (g = ODeprecated) then []
                else ["use_gflags option is deprecated"]);
             requires := requires self;
             tool_requires := tool_requires self; info := info self;
             cpp_info := cpp_info self |}.
Proof.
  intros Hs Hg. destruct self as [v s o out req treq inf ci]; simpl in *.
  unfold configure, options_after_configure, bind, when, option_get,
    rm_safe, warning, ret, set_options; simpl.
  rewrite Hs; simpl.
  destruct (truthy sh); simpl; rewrite ?lookup_delete_ne by done;
    rewrite Hg; simpl; destruct (bool_decide (g = ODeprecated)); simpl;
    by rewrite ?app_nil_r.
Qed.

Lemma options_after_config_kept v s o k :
  k ∉ "fPIC" :: backend_options →
  options_after_config v s o !! k = o !! k.
Proof.
  unfold options_after_config, backend_options.
  rewrite !not_elem_of_cons. intros (? & ? & ? & ? & _).
  destruct (String.eqb (os s) "Windows"), (ge v (V "2.0"));
    by rewrite ?lookup_delete_ne.
Qed.

Lemma options_after_config_backend v s o k :
  k ∈ backend_options →
  options_after_config v s o !! k =
    if ge v (V "2.0") then None else o !! k.
Proof.
  unfold options_after_config, backend_options.
  intros Hk. apply list_elem_of_In in Hk. simpl in Hk.
  destruct Hk as [<-|[<-|[<-|[]]]];
    destruct (ge v (V "2.0")), (String.eqb (os s) "Windows");
    rewrite ?lookup_delete_eq, ?(lookup_delete_ne _ _ _) by done;
    by rewrite ?lookup_delete_eq.
Qed.

Lemma options_after_configure_kept o k :
  k ≠ "fPIC" → options_after_configure o !! k = o !! k.
Proof.
  intros Hk. unfold options_after_configure.
  destruct (truthy_safe _); by rewrite ?lookup_delete_ne.
Qed.

Lemma resolve_options_run v s ov :
  ∃ r, resolve_options (instantiate v s ov) = Ok () r ∧ resolved v s ov r.
Proof.
  unfold resolve_options, bind.
  rewrite config_options_run by
    (intros k Hk; apply instantiate_declared;
     apply list_elem_of_In in Hk; simpl in Hk;
     destruct Hk as [<-|[<-|[<-|[<-|[]]]]]; by eexists).
  destruct (instantiate_declared v s ov "shared") as [sh Hsh];
    [by eexists|].
  destruct (instantiate_declared v s ov "use_gflags") as [g Hg];
    [by eexists|].
  simpl in Hsh, Hg.
  erewrite configure_run; cycle 1.
  - simpl. rewrite options_after_config_kept; [exact Hsh | not_listed].
  - simpl. rewrite options_after_config_kept; [exact Hg | not_listed].
  - eexists; split; [reflexivity|]. split; simpl; try done.
    rewrite Hg. destruct g; done.
Qed.

Lemma default_options_allowed : map_Forall allowed default_options.
Proof. apply (bool_decide_unpack _). by vm_compute. Qed.

(** The option resolution leaves no option with a value outside the
    values declared for it. *)
Lemma resolved_options_allowed v s ov r :
  valid_overlay ov → resolved v s ov r → map_Forall allowed (options r).
Proof.
  intros Hov Hr k x. rewrite (resolved_options _ _ _ _ Hr).
  unfold options_after_configure, options_after_config. intros H.
  assert ((ov ∪ default_options) !! k = Some x) as Hk.
  { destruct (truthy_safe _), (String.eqb (os s) "Windows"),
      (ge v (V "2.0"));
      repeat (apply lookup_delete_Some in H as [_ H]); done. }
  apply lookup_union_Some_raw in Hk as [Hk|[_ Hk]].
  - by apply Hov in Hk.
  - by apply default_options_allowed in Hk.
Qed.

Lemma resolved_lookup_kept v s ov r k :
  resolved v s ov r → k ∉ "fPIC" :: backend_options →
  options r !! k = (ov ∪ default_options) !! k.
Proof.
  intros Hr Hk. rewrite (resolved_options _ _ _ _ Hr).
  rewrite options_after_configure_kept
    by (intros ->; apply Hk, elem_of_cons; by left).
  by apply options_after_config_kept.
Qed.

Lemma resolved_lookup_backend v s ov r k :
  resolved v s ov r → k ∈ backend_options →
  options r !! k =
    if ge v (V "2.0") then None else (ov ∪ default_options) !! k.
Proof.
  intros Hr Hk. rewrite (resolved_options _ _ _ _ Hr).
  rewrite options_after_configure_kept
    by (intros ->; apply list_elem_of_In in Hk; simpl in Hk;
        by destruct Hk as [?|[?|[?|[]]]]).
  by apply options_after_config_backend.
Qed.

(** ** The descriptor emitted by [package_info] *)

Section Runs.
Variable self0 : ConanFile.

Lemma runs_ret self : runs self0 (ret ()) id self.
Proof. by intros Hf. Qed.

Lemma runs_seq m k f g self :
  runs self0 m f self → (∀ self', runs self0 k g self') →
  runs self0 (m;; k) (λ c, g (f c)) self.
Proof.
  intros Hm Hk Hf. apply wp_bind. eapply wp_mono; [exact (Hm Hf)|].
  intros [] s [Hf' Hc]. eapply wp_mono; [exact (Hk s Hf')|].
  intros [] s' [Hf'' Hc']. split; [done|]. by rewrite Hc', Hc.
Qed.

Lemma runs_when b m f self :
  runs self0 m f self →
  runs self0 (when b m) (cond b f) self.
Proof. intros Hm. destruct b; [exact Hm | apply runs_ret]. Qed.

Lemma runs_if (b : bool) m1 m2 f1 f2 self :
  runs self0 m1 f1 self → runs self0 m2 f2 self →
  runs self0 (if b then m1 else m2) (choose b f1 f2) self.
Proof. by destruct b. Qed.

Lemma runs_option_match {X} (o : option X) m1 m2 f1 f2 self :
  (∀ x, runs self0 (m1 x) (f1 x) self) → runs self0 m2 f2 self →
  runs self0 (match o with Some x => m1 x | None => m2 end)
    (with_opt o f1 f2) self.
Proof. by destruct o. Qed.

Lemma runs_component_update f self :
  runs self0 (component_update "ceres" f) f self.
Proof.
  intros Hf. apply wp_component_update. intros s Hs Hc.
  split; [by eapply frame_trans | done].
Qed.

Lemma runs_set_property k v self : runs self0 (set_property k v) id self.
Proof.
  intros Hf. apply wp_set_property. intros s Hs Hc.
  split; [by eapply frame_trans | done].
Qed.

Lemma runs_set_name k v self : runs self0 (set_name k v) id self.
Proof.
  intros Hf. apply wp_set_name. intros s Hs Hc.
  split; [by eapply frame_trans | done].
Qed.

Lemma runs_get_version (K : Version → M ()) f self :
  runs self0 (K (version self0)) f self →
  runs self0 (bind get_version K) f self.
Proof.
  intros HK Hf. apply wp_bind, wp_get_version.
  rewrite (frame_version _ _ Hf). by apply HK.
Qed.

Lemma runs_get_settings (K : Settings → M ()) f self :
  runs self0 (K (settings self0)) f self →
  runs self0 (bind get_settings K) f self.
Proof.
  intros HK Hf. apply wp_bind, wp_get_settings.
  rewrite (frame_settings _ _ Hf). by apply HK.
Qed.

Lemma runs_option_get k v (K : OptVal → M ()) f self :
  options self0 !! k = Some v →
  runs self0 (K v) f self → runs self0 (bind (option_get k) K) f self.
Proof.
  intros Hk HK Hf. apply wp_bind. eapply wp_option_get.
  - by rewrite (frame_options _ _ Hf).
  - by apply HK.
Qed.

Lemma runs_get_safe k (K : option OptVal → M ()) f self :
  runs self0 (K (options self0 !! k)) f self →
  runs self0 (bind (get_safe k) K) f self.
Proof.
  intros HK Hf. apply wp_bind, wp_get_safe.
  rewrite (frame_options _ _ Hf). by apply HK.
Qed.

Lemma runs_get_safe_default k d (K : OptVal → M ()) f self :
  runs self0 (K (default d (options self0 !! k))) f self →
  runs self0 (bind (get_safe_default k d) K) f self.
Proof.
  intros HK Hf. apply wp_bind, wp_get_safe_default.
  rewrite (frame_options _ _ Hf). by apply HK.
Qed.
End Runs.

(** One step of the symbolic run of a method body. *)
Ltac runs_step :=
  lazymatch goal with
  | |- runs _ (bind get_version _) _ _ => eapply runs_get_version
  | |- runs _ (bind get_settings _) _ _ => eapply runs_get_settings
  | |- runs _ (bind (option_get _) _) _ _ =>
      eapply runs_option_get; [eassumption|]
  | |- runs _ (bind (get_safe _) _) _ _ => eapply runs_get_safe
  | |- runs _ (bind (get_safe_default _ _) _) _ _ =>
      eapply runs_get_safe_default
  | |- runs _ (bind _ _) _ _ => eapply runs_seq; [|intros ?]
  | |- runs _ (when _ _) _ _ => eapply runs_when
  | |- runs _ (if _ then _ else _) _ _ => eapply runs_if
  | |- runs _ (match _ with Some _ => _ | None => _ end) _ _ =>
      eapply runs_option_match; [intros ?|]
  | |- runs _ (component_update "ceres" _) _ _ =>
      eapply runs_component_update
  | |- runs _ (set_property _ _) _ _ => eapply runs_set_property
  | |- runs _ (set_name _ _) _ _ => eapply runs_set_name
  | |- runs _ (ret ()) _ _ => eapply runs_ret
  end.

(** A field read through a conditional update. *)
Lemma proj_cond {X} (π : Component.t → X) b f c :
  π (cond b f c) = if b then π (f c) else π c.
Proof. by destruct b. Qed.

Lemma proj_choose {X} (π : Component.t → X) b f g c :
  π (choose b f g c) = if b then π (f c) else π (g c).
Proof. by destruct b. Qed.

Lemma proj_with_opt {X Y} (π : Component.t → X) (o : option Y) f g c :
  π (with_opt o f g c) =
    match o with Some y => π (f y c) | None => π (g c) end.
Proof. by destruct o. Qed.

Lemma if_same {X} (b : bool) (x : X) : (if b then x else x) = x.
Proof. by destruct b. Qed.

Lemma option_match_same {X Y} (o : option Y) (x : X) :
  match o with Some _ => x | None => x end = x.
Proof. by destruct o. Qed.

(** Reads a field of the component through the updates made to it. *)
Ltac proj_simpl :=
  cbn [Component.libs Component.includedirs Component.system_libs
       Component.requires Component.frameworks
       Upd.set_libs Upd.libs_append Upd.includedirs_append
       Upd.system_libs_append Upd.frameworks_append Upd.set_requires
       Upd.requires_append Upd.set_build_modules Upd.set_property id].

Ltac proj_through π :=
  proj_simpl;
  repeat (progress
            (rewrite ?(proj_cond π), ?(proj_choose π), ?(proj_with_opt π);
             proj_simpl; rewrite ?if_same, ?option_match_same)).

Lemma package_info_run self :
  is_Some (options self !! "use_cuda") →
  is_Some (options self !! "use_glog") →
  is_Some (options self !! "shared") →
  ∃ self', package_info self = Ok () self' ∧ frame self self' ∧
           described self (ceres self) (ceres self').
Proof.
  intros [cu Hcu] [gl Hgl] [sh Hsh].
  assert (∃ F, runs self package_info F self ∧
               ∀ c, described self c (F c)) as (F & HF & Hd).
  { eexists. split.
    - unfold package_info. repeat runs_step.
    - intros c. split; rewrite ?Hcu, ?Hgl, ?Hsh; cbn [truthy_safe];
        destruct (stdcpp_library (settings self)) as [l|];
        unfold libsuffix.
      + proj_through Component.libs. by destruct (truthy cu).
      + proj_through Component.libs. by destruct (truthy cu).
      + proj_through Component.includedirs.
        destruct (truthy gl); cbn [negb]; by rewrite <- ?app_assoc.
      + proj_through Component.includedirs.
        destruct (truthy gl); cbn [negb]; by rewrite <- ?app_assoc.
      + proj_through Component.system_libs.
        destruct (truthy sh), (String.eqb l ""), (bool_decide _),
          (truthy (default OTrue (options self !! "use_CXX11_threads")));
          cbn [negb];
          by rewrite <- ?app_assoc, ?app_nil_r.
      + proj_through Component.system_libs.
        destruct (truthy sh), (bool_decide _),
          (truthy (default OTrue (options self !! "use_CXX11_threads")));
          cbn [negb]; by rewrite <- ?app_assoc, ?app_nil_r.
      + proj_through Component.requires.
        by destruct (truthy gl), (truthy_safe _).
      + proj_through Component.requires.
        by destruct (truthy gl), (truthy_safe _). }
  apply (λ H, H (frame_refl self)) in HF.
  apply wp_elim in HF as ([] & self' & Hrun & Hf & Hc).
  exists self'. rewrite Hc. done.
Qed.

Lemma resolved_present v s ov r k :
  resolved v s ov r → k ∉ "fPIC" :: backend_options →
  is_Some (default_options !! k) → is_Some (options r !! k).
Proof.
  intros Hr Hk Hd. rewrite (resolved_lookup_kept _ _ _ _ _ Hr Hk).
  rewrite lookup_union_is_Some. by right.
Qed.

Lemma ceres_fresh r : cpp_info r = CppInfo.fresh → ceres r = Component.fresh.
Proof. unfold ceres. by intros ->. Qed.

(** The descriptor of a resolved instance. *)
Lemma describe_resolved v s ov r :
  resolved v s ov r →
  ∃ d, package_info r = Ok () d ∧ frame r d ∧
       described r Component.fresh (ceres d).
Proof.
  intros Hr.
  destruct (package_info_run r) as (d & Hrun & Hf & Hd).
  - apply (resolved_present _ _ _ _ _ Hr); [not_listed | by eexists].
  - apply (resolved_present _ _ _ _ _ Hr); [not_listed | by eexists].
  - apply (resolved_present _ _ _ _ _ Hr); [not_listed | by eexists].
  - exists d. rewrite <- (ceres_fresh r (resolved_cpp_info _ _ _ _ Hr)).
    done.
Qed.

(** C3. For every configuration, each library name of the descriptor
    ends in "-debug" exactly when the build type is Debug. *)
Theorem C3_debug_suffix (v : Version) (s : Settings)
    (ov : gmap string OptVal) :
  ∃ r d,
    resolve_options (instantiate v s ov) = Ok () r ∧
    package_info r = Ok () d ∧
    Component.libs (ceres d) ≠ [] ∧
    ∀ lib, lib ∈ Component.libs (ceres d) →
           (ends_with "-debug" lib = true ↔ build_type s = "Debug").
Proof.
  destruct (resolve_options_run v s ov) as (r & Hres & Hr).
  destruct (describe_resolved v s ov r Hr) as (d & Hrun & Hf & Hd).
  exists r, d. split; [done|]. split; [done|].
  rewrite (described_libs _ _ _ Hd), (resolved_settings _ _ _ _ Hr).
  split; [done|]. intros lib Hlib. unfold libsuffix in Hlib.
  destruct (String.eqb_spec (build_type s) "Debug") as [->|Hne];
    destruct (truthy_safe _);
    repeat (apply elem_of_cons in Hlib as [->|Hlib]);
    try (by apply elem_of_nil in Hlib); by split.
Qed.

Lemma times_package_info n self :
  is_Some (options self !! "use_cuda") →
  is_Some (options self !! "use_glog") →
  is_Some (options self !! "shared") →
  ∃ d, times (S n) package_info self = Ok () d ∧ frame self d ∧
       ∃ c, described self c (ceres d).
Proof.
  revert self. induction n as [|n IH]; intros self Hcu Hgl Hsh.
  - destruct (package_info_run self Hcu Hgl Hsh) as (d & Hrun & Hf & Hd).
    exists d. split; [|by eauto].
    simpl. unfold bind. by rewrite Hrun.
  - destruct (package_info_run self Hcu Hgl Hsh) as (d & Hrun & Hf & Hd).
    destruct (IH d) as (d' & Hrun' & Hf' & c & Hd').
    1-3: by rewrite (frame_options _ _ Hf).
    exists d'. split; [|split; [by eapply frame_trans|]].
    + change (times (S (S n)) package_info) with
        (bind package_info (λ _, times (S n) package_info)).
      unfold bind at 1. by rewrite Hrun.
    + exists c. destruct Hd' as [H1 H2 H3 H4].
      rewrite (frame_options _ _ Hf), (frame_settings _ _ Hf) in *.
      by split.
Qed.

(** C4. For every configuration, the descriptor with [use_cuda] enabled
    lists the library names of the same configuration with [use_cuda]
    disabled followed by one more name, the CUDA kernels library, which
    the disabled configuration does not list; after any number of
    invocations of [package_info] the names are still these, without a
    duplicate. *)
Theorem C4_cuda_library (v : Version) (s : Settings)
    (ov : gmap string OptVal) (n : nat) :
  ∃ r_off r_on d_off d_on,
    resolve_options (instantiate v s (<["use_cuda" := OFalse]> ov))
      = Ok () r_off ∧
    resolve_options (instantiate v s (<["use_cuda" := OTrue]> ov))
      = Ok () r_on ∧
    package_info r_off = Ok () d_off ∧
    times (S n) package_info r_on = Ok () d_on ∧
    Component.libs (ceres d_on) =
      (Component.libs (ceres d_off) ++
       ["ceres_cuda_kernels" +:+ libsuffix s])%list ∧
    (("ceres_cuda_kernels" +:+ libsuffix s) ∉ Component.libs (ceres d_off)) ∧
    NoDup (Component.libs (ceres d_on)).
Proof.
  destruct (resolve_options_run v s (<["use_cuda" := OFalse]> ov))
    as (r_off & Hres_off & Hoff).
  destruct (resolve_options_run v s (<["use_cuda" := OTrue]> ov))
    as (r_on & Hres_on & Hon).
  destruct (describe_resolved _ _ _ _ Hoff) as (d_off & Hrun & _ & Hd).
  assert (∀ k ov' r, resolved v s ov' r →
                     k ∈ ["use_cuda"; "use_glog"; "shared"] →
                     is_Some (options r !! k)) as Hpresent.
  { intros k ov' r Hr Hk. apply list_elem_of_In in Hk. simpl in Hk.
    destruct Hk as [<-|[<-|[<-|[]]]];
      (apply (resolved_present _ _ _ _ _ Hr); [not_listed | by eexists]). }
  destruct (times_package_info n r_on) as (d_on & Hrun' & _ & c & Hd').
  1-3: apply (Hpresent _ _ _ Hon); listed.
  exists r_off, r_on, d_off, d_on. repeat (split; [done|]).
  rewrite (described_libs _ _ _ Hd), (described_libs _ _ _ Hd').
  rewrite (resolved_settings _ _ _ _ Hoff), (resolved_settings _ _ _ _ Hon).
  rewrite (resolved_lookup_kept _ _ _ _ "use_cuda" Hoff),
    (resolved_lookup_kept _ _ _ _ "use_cuda" Hon).
  2,3: not_listed.
  rewrite !(lookup_union_l' _ _ "use_cuda"), !lookup_insert_eq
    by (rewrite lookup_insert_eq; by eexists).
  simpl. unfold libsuffix.
  destruct (String.eqb (build_type s) "Debug"); simpl.
  - split; [done|]. split.
    + rewrite list_elem_of_singleton. done.
    + apply NoDup_cons. split; [|apply NoDup_singleton].
      rewrite list_elem_of_singleton. done.
  - split; [done|]. split.
    + rewrite list_elem_of_singleton. done.
    + apply NoDup_cons. split; [|apply NoDup_singleton].
      rewrite list_elem_of_singleton. done.
Qed.

Lemma stdcpp_library_not_pthread s : stdcpp_library s ≠ Some "pthread".
Proof.
  unfold stdcpp_library. destruct (compiler_libcxx s); [|done].
  repeat case_match; done.
Qed.

Lemma libcxx_not_pthread s (b : bool) :
  "pthread" ∉
    (if b then []
     else match stdcpp_library s with
          | Some l => if String.eqb l "" then [] else [l]
          | None => []
          end).
Proof.
  pose proof (stdcpp_library_not_pthread s) as Hlib.
  destruct b, (stdcpp_library s) as [l|]; try apply not_elem_of_nil.
  destruct (String.eqb l ""); [apply not_elem_of_nil|].
  rewrite list_elem_of_singleton. congruence.
Qed.

(** C9. On Linux and FreeBSD: from version 2.0 on, the option
    [use_CXX11_threads] does not exist in the resolved option set and the
    descriptor lists the system library pthread; below 2.0 the option
    exists and pthread is listed exactly when it is enabled. *)
Theorem C9_pthread (v : Version) (s : Settings) (ov : gmap string OptVal) :
  os s ∈ ["Linux"; "FreeBSD"] →
  ∃ r d,
    resolve_options (instantiate v s ov) = Ok () r ∧
    package_info r = Ok () d ∧
    (ge v (V "2.0") = true →
     options r !! "use_CXX11_threads" = None ∧
     "pthread" ∈ Component.system_libs (ceres d)) ∧
    (ge v (V "2.0") = false →
     ∃ t, options r !! "use_CXX11_threads" = Some t ∧
          ("pthread" ∈ Component.system_libs (ceres d) ↔ truthy t = true)).
Proof.
  intros Hos.
  destruct (resolve_options_run v s ov) as (r & Hres & Hr).
  destruct (describe_resolved v s ov r Hr) as (d & Hrun & Hf & Hd).
  exists r, d. split; [done|]. split; [done|].
  rewrite (described_system_libs _ _ _ Hd), (resolved_settings _ _ _ _ Hr).
  rewrite (bool_decide_eq_true_2 _ Hos).
  rewrite (resolved_lookup_backend _ _ _ _ "use_CXX11_threads" Hr)
    by listed.
  split; intros ->.
  - split; [done|]. simpl. apply elem_of_cons; right. apply elem_of_cons.
    by left.
  - assert (is_Some ((ov ∪ default_options) !! "use_CXX11_threads"))
      as [t Ht] by (rewrite lookup_union_is_Some; right; by eexists).
    exists t. split; [done|]. rewrite Ht. simpl.
    rewrite elem_of_cons, elem_of_app. split.
    + intros [?|[H|H]]; [done| |by apply libcxx_not_pthread in H].
      destruct (truthy t); [done | by apply elem_of_nil in H].
    + intros ->. right. left. apply elem_of_cons. by left.
Qed.

Lemma C9_pthread_witness :
  "Linux" ∈ ["Linux"; "FreeBSD"] ∧
  ∃ r d,
    resolve_options (instantiate (V "2.2.0") (linux_gcc "Release") ∅)
      = Ok () r ∧
    package_info r = Ok () d ∧
    (ge (V "2.2.0") (V "2.0") = true →
     options r !! "use_CXX11_threads" = None ∧
     "pthread" ∈ Component.system_libs (ceres d)) ∧
    (ge (V "2.2.0") (V "2.0") = false →
     ∃ t, options r !! "use_CXX11_threads" = Some t ∧
          ("pthread" ∈ Component.system_libs (ceres d) ↔ truthy t = true)).
Proof.
  split; [apply elem_of_cons; by left|].
  apply (C9_pthread (V "2.2.0") (linux_gcc "Release") ∅).
  apply elem_of_cons; by left.
Defined.

(** ** The declared requirements *)

Lemma requirements_run self gl :
  options self !! "use_glog" = Some gl →
  ∃ q, requirements self = Ok () q ∧
       requires q =
         (requires self ++ [eigen] ++
          (if truthy gl then [glog] else []) ++
          (if truthy_safe (options self !! "use_TBB") then [onetbb]
           else []))%list.
Proof.
  intros Hgl. destruct self as [v s o out req treq inf ci]; simpl in *.
  unfold requirements, bind, when, add_requires, option_get, get_safe, ret;
    simpl.
  rewrite Hgl.
  destruct (truthy gl), (truthy_safe (o !! "use_TBB")) eqn:Ht; simpl;
    rewrite ?Ht; simpl; (eexists; split; [reflexivity|]); simpl;
    by rewrite <- ?app_assoc, ?app_nil_r.
Qed.

Lemma min_cppstd_run self :
  _min_cppstd self = Ok (required_cppstd (version self)) self.
Proof.
  unfold _min_cppstd, required_cppstd, bind, get_version, ret.
  by destruct (ge (version self) (V "2.2.0")),
    (ge (version self) (V "2.0.0")).
Qed.

(** C5. For version 2.2.0 on Linux with gcc, a build type other than
    Debug and the overlay
    use_glog = False, use_cuda = True: the minimum language standard is
    17, the declared requirements are eigen alone, the library names are
    ceres and ceres_cuda_kernels, and the include directories contain the
    miniglog directory. *)
Theorem C5_example (s : Settings) :
  os s = "Linux" → compiler s = "gcc" → build_type s ≠ "Debug" →
  ∃ r q d,
    resolve_options (instantiate (V "2.2.0") s example_overlay) = Ok () r ∧
    _min_cppstd r = Ok "17" r ∧
    requirements r = Ok () q ∧
    requires q = [eigen] ∧
    package_info r = Ok () d ∧
    Component.requires (ceres d) = ["eigen::eigen"] ∧
    Component.libs (ceres d) = ["ceres"; "ceres_cuda_kernels"] ∧
    "include/ceres/internal/miniglog" ∈ Component.includedirs (ceres d).
Proof.
  intros _ _ Hbt.
  destruct (resolve_options_run (V "2.2.0") s example_overlay)
    as (r & Hres & Hr).
  destruct (describe_resolved _ _ _ _ Hr) as (d & Hrun & Hf & Hd).
  assert (options r !! "use_glog" = Some OFalse) as Hgl
    by (by rewrite (resolved_lookup_kept _ _ _ _ _ Hr) by not_listed).
  assert (options r !! "use_cuda" = Some OTrue) as Hcu
    by (by rewrite (resolved_lookup_kept _ _ _ _ _ Hr) by not_listed).
  assert (options r !! "use_TBB" = None) as Htbb.
  { by rewrite (resolved_lookup_backend _ _ _ _ "use_TBB" Hr)
      by listed. }
  destruct (requirements_run r OFalse Hgl) as (q & Hreq & Hq).
  exists r, q, d. split; [done|]. split.
  { rewrite min_cppstd_run, (resolved_version _ _ _ _ Hr). done. }
  split; [done|]. split.
  { rewrite Hq, Htbb, (resolved_requires _ _ _ _ Hr). done. }
  split; [done|].
  rewrite (described_requires _ _ _ Hd), (described_libs _ _ _ Hd),
    (described_includedirs _ _ _ Hd), Hgl, Hcu, Htbb.
  rewrite (resolved_settings _ _ _ _ Hr). unfold libsuffix.
  apply String.eqb_neq in Hbt. rewrite Hbt. simpl.
  repeat split. rewrite !elem_of_cons. tauto.
Qed.

Lemma C5_example_witness :
  "Linux" = "Linux" ∧ "gcc" = "gcc" ∧ "Release" ≠ "Debug" ∧
  ∃ r q d,
    resolve_options
      (instantiate (V "2.2.0") (linux_gcc "Release") example_overlay)
      = Ok () r ∧
    _min_cppstd r = Ok "17" r ∧
    requirements r = Ok () q ∧
    requires q = [eigen] ∧
    package_info r = Ok () d ∧
    Component.requires (ceres d) = ["eigen::eigen"] ∧
    Component.libs (ceres d) = ["ceres"; "ceres_cuda_kernels"] ∧
    "include/ceres/internal/miniglog" ∈ Component.includedirs (ceres d).
Proof.
  split; [reflexivity|]. split; [reflexivity|]. split; [discriminate|].
  apply (C5_example (linux_gcc "Release")); [reflexivity | reflexivity |].
  discriminate.
Defined.

(** At the build type Debug the library names of the example
    configuration carry the suffix, so they are not the names the example
    gives. *)
Lemma C5_counterexample :
  ∃ r d,
    resolve_options
      (instantiate (V "2.2.0") (linux_gcc "Debug") example_overlay)
      = Ok () r ∧
    package_info r = Ok () d ∧
    Component.libs (ceres d) = ["ceres-debug"; "ceres_cuda_kernels-debug"] ∧
    Component.libs (ceres d) ≠ ["ceres"; "ceres_cuda_kernels"].
Proof.
  eexists _, _. split; [vm_compute; reflexivity|].
  split; [vm_compute; reflexivity|]. split; [reflexivity | discriminate].
Qed.

(** C1. For every version from 2.0 on, [config_options] returns without
    raising and leaves none of [use_TBB], [use_CXX11_threads] and
    [use_CXX11] in the option set; [configure] does not bring them
    back. *)
Theorem C1_backend_options_absent (v : Version) (s : Settings)
    (ov : gmap string OptVal) :
  ge v (V "2.0") = true →
  ∃ r0 r,
    config_options (instantiate v s ov) = Ok () r0 ∧
    options r0 !! "use_TBB" = None ∧
    options r0 !! "use_CXX11_threads" = None ∧
    options r0 !! "use_CXX11" = None ∧
    configure r0 = Ok () r ∧
    options r !! "use_TBB" = None ∧
    options r !! "use_CXX11_threads" = None ∧
    options r !! "use_CXX11" = None.
Proof.
  intros Hge.
  destruct (resolve_options_run v s ov) as (r & Hres & Hr).
  unfold resolve_options, bind in Hres.
  destruct (config_options (instantiate v s ov)) as [[] r0|] eqn:Hcfg;
    [|done].
  exists r0, r. split; [done|].
  rewrite config_options_run in Hcfg.
  2: { intros k Hk. apply instantiate_declared.
       apply list_elem_of_In in Hk. simpl in Hk.
       destruct Hk as [<-|[<-|[<-|[<-|[]]]]]; by eexists. }
  injection Hcfg as <-. simpl.
  rewrite !options_after_config_backend, Hge
    by listed.
  repeat (split; [done|]).
  rewrite !(resolved_lookup_backend _ _ _ _ _ Hr), Hge
    by listed.
  done.
Qed.

Lemma C1_backend_options_absent_witness :
  ge (V "2.2.0") (V "2.0") = true ∧
  ∃ r0 r,
    config_options
      (instantiate (V "2.2.0") (linux_gcc "Release") {["use_TBB" := OTrue]})
      = Ok () r0 ∧
    options r0 !! "use_TBB" = None ∧
    options r0 !! "use_CXX11_threads" = None ∧
    options r0 !! "use_CXX11" = None ∧
    configure r0 = Ok () r ∧
    options r !! "use_TBB" = None ∧
    options r !! "use_CXX11_threads" = None ∧
    options r !! "use_CXX11" = None.
Proof.
  split; [reflexivity|].
  apply (C1_backend_options_absent (V "2.2.0") (linux_gcc "Release")
           {["use_TBB" := OTrue]}).
  reflexivity.
Defined.

(** C8. [configure] never raises on an instance: it logs one warning when
    the overlay gives [use_gflags] a value other than "deprecated", and
    none when the option is left at its default; the steps after it run
    in either case. *)
Theorem C8_deprecation_warning (v : Version) (s : Settings)
    (ov : gmap string OptVal) :
  ∃ r0 r,
    config_options (instantiate v s ov) = Ok () r0 ∧
    output r0 = [] ∧
    configure r0 = Ok () r ∧
    (∀ B (k : () → M B), bind configure k r0 = k () r) ∧
    (∀ g, ov !! "use_gflags" = Some g → g ≠ ODeprecated →
          output r = ["use_gflags option is deprecated"]) ∧
    (ov !! "use_gflags" = None ∨ ov !! "use_gflags" = Some ODeprecated →
     output r = []).
Proof.
  destruct (resolve_options_run v s ov) as (r & Hres & Hr).
  unfold resolve_options, bind in Hres.
  destruct (config_options (instantiate v s ov)) as [[] r0|] eqn:Hcfg;
    [|done].
  exists r0, r. split; [done|]. split.
  { rewrite config_options_run in Hcfg.
    - by injection Hcfg as <-.
    - intros k Hk. apply instantiate_declared.
      apply list_elem_of_In in Hk. simpl in Hk.
      destruct Hk as [<-|[<-|[<-|[<-|[]]]]]; by eexists. }
  split; [done|]. split.
  { intros B k. unfold bind. by rewrite Hres. }
  rewrite (resolved_output _ _ _ _ Hr). split.
  - intros g Hg Hne. rewrite (lookup_union_Some_l _ _ _ _ Hg).
    rewrite bool_decide_eq_false_2; [done|congruence].
  - intros [Hg|Hg].
    + by rewrite (lookup_union_r _ _ _ Hg).
    + by rewrite (lookup_union_Some_l _ _ _ _ Hg).
Qed.

(** ** Package identity *)

Lemma options_after_config_ext v s (o1 o2 : gmap string OptVal) k :
  o1 !! k = o2 !! k →
  options_after_config v s o1 !! k = options_after_config v s o2 !! k.
Proof.
  intros H. unfold options_after_config.
  destruct (String.eqb (os s) "Windows"), (ge v (V "2.0"));
    rewrite ?lookup_delete; repeat case_decide; done.
Qed.

Lemma options_after_configure_ext (o1 o2 : gmap string OptVal) k :
  o1 !! "shared" = o2 !! "shared" → o1 !! k = o2 !! k →
  options_after_configure o1 !! k = options_after_configure o2 !! k.
Proof.
  intros Hs H. unfold options_after_configure. rewrite Hs.
  destruct (truthy_safe _); rewrite ?lookup_delete; repeat case_decide;
    done.
Qed.

Lemma package_id_run self :
  is_Some (options self !! "use_gflags") →
  (init_info;; package_id) self =
    Ok () (set_info {| Info.settings := settings self;
                       Info.options := delete "use_gflags" (options self) |}
                    self).
Proof.
  intros [g Hg]. destruct self as [v s o out req treq inf ci]; simpl in *.
  unfold bind, init_info, package_id, info_option_del; simpl.
  by rewrite Hg.
Qed.

(** C10. Two configurations that differ only in the value of
    [use_gflags] get the same [self.info] from [package_id], so the same
    package id; the option is not part of it. *)
Theorem C10_package_id_ignores_use_gflags (v : Version) (s : Settings)
    (ov : gmap string OptVal) (g1 g2 : OptVal) :
  ∃ r1 r2,
    (resolve_options;; init_info;; package_id)
      (instantiate v s (<["use_gflags" := g1]> ov)) = Ok () r1 ∧
    (resolve_options;; init_info;; package_id)
      (instantiate v s (<["use_gflags" := g2]> ov)) = Ok () r2 ∧
    info r1 = info r2 ∧
    Info.options (info r1) !! "use_gflags" = None.
Proof.
  destruct (resolve_options_run v s (<["use_gflags" := g1]> ov))
    as (r1 & Hres1 & Hr1).
  destruct (resolve_options_run v s (<["use_gflags" := g2]> ov))
    as (r2 & Hres2 & Hr2).
  assert (∀ ov' r, resolved v s ov' r →
                   is_Some (options r !! "use_gflags")) as Hpresent.
  { intros ov' r Hr.
    apply (resolved_present _ _ _ _ _ Hr); [not_listed | by eexists]. }
  eexists _, _. split; [|split].
  - unfold bind at 1. rewrite Hres1. apply package_id_run. by eapply Hpresent.
  - unfold bind at 1. rewrite Hres2. apply package_id_run. by eapply Hpresent.
  - simpl. rewrite lookup_delete_eq. split; [|done].
    rewrite (resolved_settings _ _ _ _ Hr1), (resolved_settings _ _ _ _ Hr2).
    f_equal. apply map_eq. intros k.
    destruct (decide (k = "use_gflags")) as [->|Hk];
      [by rewrite !lookup_delete_eq|].
    rewrite !lookup_delete_ne by done.
    rewrite (resolved_options _ _ _ _ Hr1), (resolved_options _ _ _ _ Hr2).
    assert (∀ k', k' ≠ "use_gflags" →
              (<["use_gflags" := g1]> ov ∪ default_options) !! k' =
              (<["use_gflags" := g2]> ov ∪ default_options) !! k') as Hext.
    { intros k' Hk'. rewrite !lookup_union, !lookup_insert_ne; done. }
    apply options_after_configure_ext;
      apply options_after_config_ext; by apply Hext.
Qed.

(** ** Validation *)

Lemma required_cppstd_isdigit v : isdigit (required_cppstd v) = true.
Proof.
  unfold required_cppstd.
  by destruct (ge v (V "2.2.0")), (ge v (V "2.0.0")).
Qed.

Lemma minimum_versions_nonempty std (tbl : gmap string string) k m :
  compilers_minimum_version_table !! std = Some tbl →
  tbl !! k = Some m → String.eqb m "" = false.
Proof.
  assert (map_Forall
            (λ _ (tbl : gmap string string),
               map_Forall (λ _ m, String.eqb m "" = false) tbl)
            compilers_minimum_version_table) as H.
  { apply (bool_decide_unpack _). by vm_compute. }
  intros Hstd Hk. exact (H _ _ Hstd _ _ Hk).
Qed.

Lemma compilers_minimum_version_run self :
  _compilers_minimum_version self =
    Ok (default ∅
          (compilers_minimum_version_table
             !! required_cppstd (version self))) self.
Proof.
  unfold _compilers_minimum_version, bind. by rewrite min_cppstd_run.
Qed.

Lemma check_min_cppstd_run self c :
  compiler_cppstd (settings self) = Some c →
  check_min_cppstd (required_cppstd (version self)) self =
    if cppstd_lower c (required_cppstd (version self))
    then Raise ConanInvalidConfiguration else Ok () self.
Proof.
  intros Hc. unfold check_min_cppstd, bind, get_settings.
  rewrite required_cppstd_isdigit, Hc. cbn [negb].
  by destruct (cppstd_lower c _).
Qed.

Lemma validate_run self :
  validate self =
    if below_minimum self then Raise ConanInvalidConfiguration
    else Ok () self.
Proof.
  unfold below_minimum, cppstd_too_low, compiler_too_old, validate.
  set (rest := bind _compilers_minimum_version _).
  assert (rest self =
            if match
                 default ∅
                   (compilers_minimum_version_table
                      !! required_cppstd (version self))
                   !! compiler (settings self)
               with
               | Some minimum_version =>
                   lt (compiler_version (settings self)) (V minimum_version)
               | None => false
               end
            then Raise ConanInvalidConfiguration else Ok () self) as Hrest.
  { unfold rest, bind. rewrite compilers_minimum_version_run.
    unfold get_settings.
    destruct (compilers_minimum_version_table !! _) as [tbl|] eqn:Ht;
      simpl; [|by rewrite lookup_empty].
    destruct (tbl !! compiler (settings self)) as [m|] eqn:Hm; [|done].
    rewrite (minimum_versions_nonempty _ _ _ _ Ht Hm). simpl.
    by destruct (lt (compiler_version (settings self)) (V m)). }
  clearbody rest. unfold bind at 1 2, get_settings, when.
  destruct (compiler_cppstd (settings self)) as [c|] eqn:Hc; [|done].
  destruct (String.eqb c ""); cbn [negb andb orb]; [done|].
  unfold bind. rewrite min_cppstd_run, (check_min_cppstd_run _ c Hc).
  by destruct (cppstd_lower c _).
Qed.

Lemma table_14 :
  compilers_minimum_version_table !! "14" =
    Some (list_to_map [("apple-clang", "5"); ("clang", "5"); ("gcc", "5");
                       ("msvc", "190"); ("Visual Studio", "14")]).
Proof. exact eq_refl. Qed.

Lemma table_17 :
  compilers_minimum_version_table !! "17" =
    Some (list_to_map [("apple-clang", "10"); ("clang", "7"); ("gcc", "8");
                       ("msvc", "191"); ("Visual Studio", "15")]).
Proof. exact eq_refl. Qed.

Lemma table_98 : compilers_minimum_version_table !! "98" = None.
Proof. exact eq_refl. Qed.










(** ** Build-flag translation *)

Lemma generate_run self :
  is_Some (options self !! "use_glog") →
  is_Some (options self !! "use_schur_specializations") →
  is_Some (options self !! "use_custom_blas") →
  is_Some (options self !! "use_eigen_sparse") →
  is_Some (options self !! "use_cuda") →
  (ge (version self) (V "2.0.0") = false →
   is_Some (options self !! "use_CXX11") ∧
   is_Some (options self !! "use_TBB") ∧
   is_Some (options self !! "use_CXX11_threads")) →
  ∃ tc, generate self = Ok tc self ∧ gated (version self) (options self) tc.
Proof.
  intros [gl Hgl] [sc Hsc] [cb Hcb] [es Hes] [cu Hcu] Hlegacy.
  destruct self as [v s o out req treq inf ci]; simpl in *.
  unfold generate, bind, option_get, get_version, get_settings, ret; simpl.
  rewrite Hgl; simpl. rewrite Hsc; simpl. rewrite Hcb; simpl.
  rewrite Hes; simpl.
  rewrite !lt_negb_ge.
  destruct (ge v (V "2.2.0")) eqn:H22;
    [pose proof (ge_2_2_ge_2_1 v H22) as H21;
     pose proof (ge_2_1_ge_2_0 v H21) as H20
    |destruct (ge v (V "2.1.0")) eqn:H21;
     [pose proof (ge_2_1_ge_2_0 v H21) as H20
     |destruct (ge v (V "2.0.0")) eqn:H20]];
    rewrite ?H21, ?H20; simpl; rewrite ?Hcu; simpl.
  4: { destruct (Hlegacy eq_refl) as ([c11 Hc11] & [tbb Htbb] & [thr Hthr]).
       rewrite Hc11; simpl. rewrite Htbb; simpl. rewrite Hthr; simpl.
       destruct (is_apple_os s), (is_msvc s), (String.eqb (os s) "iOS");
         (eexists; split; [reflexivity|]);
         split; rewrite ?lt_negb_ge, ?H22, ?H21, ?H20, ?Hcu, ?Hc11, ?Htbb,
           ?Hthr; by vm_compute. }
  all: destruct (is_apple_os s), (is_msvc s), (String.eqb (os s) "iOS");
    (eexists; split; [reflexivity|]);
    split; rewrite ?lt_negb_ge, ?H22, ?H21, ?H20, ?Hcu; by vm_compute.
Qed.

(** The translation of a resolved instance. *)
Lemma generate_resolved v s ov r :
  resolved v s ov r →
  ∃ tc, generate r = Ok tc r ∧ gated v (options r) tc.
Proof.
  intros Hr. rewrite <- (resolved_version _ _ _ _ Hr).
  apply generate_run.
  1-5: apply (resolved_present _ _ _ _ _ Hr); [not_listed | by eexists].
  rewrite (resolved_version _ _ _ _ Hr), <- ge_2_0. intros Hge.
  rewrite !(resolved_lookup_backend _ _ _ _ _ Hr), Hge
    by listed.
  rewrite !lookup_union_is_Some. repeat split; right; by eexists.
Qed.

Lemma variable_names_run v s ov :
  ∃ r tc, resolved v s ov r ∧ generate r = Ok tc r ∧
          gated v (options r) tc ∧ variable_names v s ov = Some (dom tc).
Proof.
  destruct (resolve_options_run v s ov) as (r & Hres & Hr).
  destruct (generate_resolved _ _ _ _ Hr) as (tc & Hgen & Hg).
  exists r, tc. repeat (split; [done|]).
  unfold variable_names, bind. by rewrite Hres, Hgen.
Qed.

(** Two configurations name different variables when one of them assigns
    a variable the other does not. *)
Lemma variable_names_differ v v' s ov k :
  (∀ o tc, gated v o tc → is_Some (tc !! k)) →
  (∀ o tc, gated v' o tc → tc !! k = None) →
  variable_names v s ov ≠ variable_names v' s ov.
Proof.
  intros Hin Hout.
  destruct (variable_names_run v s ov) as (r & tc & _ & _ & Hg & ->).
  destruct (variable_names_run v' s ov) as (r' & tc' & _ & _ & Hg' & ->).
  intros [= Hdom]. apply Hin in Hg. apply Hout in Hg'.
  apply elem_of_dom in Hg. rewrite Hdom in Hg. apply elem_of_dom in Hg.
  rewrite Hg' in Hg. by destruct Hg.
Qed.

(** C6. The translation is gated by the version. The CUDA option goes to
    USE_CUDA from 2.2.0 on, to CUDA from 2.1.0 up to 2.2.0, and to no
    variable below 2.1.0; the threading options go to CXX11, TBB and
    CXX11_THREADS below 2.0.0 and to no variable from 2.0.0 on. Versions
    taken from the four ranges cut by 2.0.0, 2.1.0 and 2.2.0 get four
    different sets of variable names. *)
Theorem C6_version_gated_variables (v : Version) (s : Settings)
    (ov : gmap string OptVal) :
  (∃ r tc cu,
     resolve_options (instantiate v s ov) = Ok () r ∧
     generate r = Ok tc r ∧
     options r !! "use_cuda" = Some cu ∧
     (ge v (V "2.2.0") = true →
      tc !! "USE_CUDA" = Some (VOption cu) ∧ tc !! "CUDA" = None) ∧
     (ge v (V "2.1.0") = true → lt v (V "2.2.0") = true →
      tc !! "CUDA" = Some (VOption cu) ∧ tc !! "USE_CUDA" = None) ∧
     (lt v (V "2.1.0") = true →
      tc !! "CUDA" = None ∧ tc !! "USE_CUDA" = None) ∧
     (lt v (V "2.0.0") = true →
      ∃ cxx11 tbb threads,
        options r !! "use_CXX11" = Some cxx11 ∧
        options r !! "use_TBB" = Some tbb ∧
        options r !! "use_CXX11_threads" = Some threads ∧
        tc !! "CXX11" = Some (VOption cxx11) ∧
        tc !! "TBB" = Some (VOption tbb) ∧
        tc !! "CXX11_THREADS" = Some (VOption threads)) ∧
     (ge v (V "2.0.0") = true →
      tc !! "CXX11" = None ∧ tc !! "TBB" = None ∧
      tc !! "CXX11_THREADS" = None)) ∧
  (∀ v1 v2 v3 v4,
     lt v1 (V "2.0.0") = true →
     ge v2 (V "2.0.0") = true → lt v2 (V "2.1.0") = true →
     ge v3 (V "2.1.0") = true → lt v3 (V "2.2.0") = true →
     ge v4 (V "2.2.0") = true →
     NoDup [variable_names v1 s ov; variable_names v2 s ov;
            variable_names v3 s ov; variable_names v4 s ov]).
Proof.
  split.
  - destruct (resolve_options_run v s ov) as (r & Hres & Hr).
    destruct (generate_resolved _ _ _ _ Hr) as (tc & Hgen & Hg).
    destruct (resolved_present _ _ _ r "use_cuda" Hr) as [cu Hcu];
      [not_listed | by eexists |].
    exists r, tc, cu. repeat (split; [done|]).
    rewrite (gated_USE_CUDA _ _ _ Hg), (gated_CUDA _ _ _ Hg),
      (gated_CXX11 _ _ _ Hg), (gated_TBB _ _ _ Hg),
      (gated_CXX11_THREADS _ _ _ Hg), Hcu, !lt_negb_ge.
    split; [intros ->; by split|].
    split; [intros H21 H22%negb_true_iff; rewrite H21, H22; by split|].
    split.
    { intros H21%negb_true_iff. rewrite H21.
      destruct (ge v (V "2.2.0")) eqn:H22; [|by split].
      by rewrite (ge_2_2_ge_2_1 _ H22) in H21. }
    split; [|intros ->; by split].
    intros H20. rewrite H20. apply negb_true_iff in H20.
    rewrite <- ge_2_0 in H20.
    rewrite !(resolved_lookup_backend _ _ _ _ _ Hr), H20
      by listed.
    destruct (lookup_union_is_Some ov default_options "use_CXX11")
      as [_ [c11 Hc11]]; [right; by eexists|].
    destruct (lookup_union_is_Some ov default_options "use_TBB")
      as [_ [tbb Htbb]]; [right; by eexists|].
    destruct (lookup_union_is_Some ov default_options "use_CXX11_threads")
      as [_ [thr Hthr]]; [right; by eexists|].
    exists c11, tbb, thr. by rewrite Hc11, Htbb, Hthr.
  - intros v1 v2 v3 v4 H1 H2 H2' H3 H3' H4.
    rewrite lt_negb_ge, negb_true_iff in H1, H2', H3'.
    pose proof (ge_2_2_ge_2_1 v4 H4) as H4'.
    pose proof (ge_2_1_ge_2_0 v4 H4') as H4''.
    pose proof (ge_2_1_ge_2_0 v3 H3) as H3''.
    assert (ge v2 (V "2.2.0") = false) as H2''.
    { destruct (ge v2 (V "2.2.0")) eqn:E; [|done].
      by rewrite (ge_2_2_ge_2_1 _ E) in H2'. }
    assert (ge v1 (V "2.1.0") = false) as H1'.
    { destruct (ge v1 (V "2.1.0")) eqn:E; [|done].
      by rewrite (ge_2_1_ge_2_0 _ E) in H1. }
    assert (ge v1 (V "2.2.0") = false) as H1''.
    { destruct (ge v1 (V "2.2.0")) eqn:E; [|done].
      by rewrite (ge_2_2_ge_2_1 _ E) in H1'. }
    repeat (apply NoDup_cons; split); try apply NoDup_nil_2;
      rewrite ?not_elem_of_cons; repeat split; try apply not_elem_of_nil.
    + apply (variable_names_differ _ _ _ _ "OPENMP"); intros o tc Hg;
        rewrite (gated_OPENMP _ _ _ Hg), lt_negb_ge, ?H1, ?H2; done.
    + apply (variable_names_differ _ _ _ _ "OPENMP"); intros o tc Hg;
        rewrite (gated_OPENMP _ _ _ Hg), lt_negb_ge, ?H1, ?H3''; done.
    + apply (variable_names_differ _ _ _ _ "OPENMP"); intros o tc Hg;
        rewrite (gated_OPENMP _ _ _ Hg), lt_negb_ge, ?H1, ?H4''; done.
    + apply (variable_names_differ _ _ _ _ "LIB_SUFFIX"); intros o tc Hg;
        rewrite (gated_LIB_SUFFIX _ _ _ Hg), lt_negb_ge, ?H2', ?H3; done.
    + apply (variable_names_differ _ _ _ _ "LIB_SUFFIX"); intros o tc Hg;
        rewrite (gated_LIB_SUFFIX _ _ _ Hg), lt_negb_ge, ?H2', ?H4'; done.
    + apply (variable_names_differ _ _ _ _ "CXSPARSE"); intros o tc Hg;
        rewrite (gated_CXSPARSE _ _ _ Hg), lt_negb_ge, ?H3', ?H4; done.
Qed.

(** ** Determinism of the translation *)

Section ReadsOnly.
Context {A B : Type}.

Lemma reads_only_ret (a : A) : reads_only (ret a).
Proof. by intros s1 s2 _. Qed.

Lemma reads_only_bind (m : M A) (k : A → M B) :
  reads_only m → (∀ a, reads_only (k a)) → reads_only (bind m k).
Proof.
  intros Hm Hk s1 s2 Hf. unfold bind. specialize (Hm s1 s2 Hf).
  destruct (m s1) as [a1 s1'|e1], (m s2) as [a2 s2'|e2]; try done.
  destruct Hm as (-> & -> & ->). by apply Hk.
Qed.

Lemma reads_only_if (b : bool) (m1 m2 : M A) :
  reads_only m1 → reads_only m2 → reads_only (if b then m1 else m2).
Proof. by destruct b. Qed.
End ReadsOnly.

Lemma reads_only_option_get k : reads_only (option_get k).
Proof.
  intros s1 s2 Hf. unfold option_get. rewrite (frame_options _ _ Hf).
  by destruct (options s1 !! k).
Qed.

Lemma reads_only_get_version : reads_only get_version.
Proof.
  intros s1 s2 Hf. unfold get_version. by rewrite (frame_version _ _ Hf).
Qed.

Lemma reads_only_get_settings : reads_only get_settings.
Proof.
  intros s1 s2 Hf. unfold get_settings. by rewrite (frame_settings _ _ Hf).
Qed.

Lemma generate_reads_only : reads_only generate.
Proof.
  unfold generate.
  repeat first
    [ apply reads_only_ret
    | apply reads_only_option_get
    | apply reads_only_get_version
    | apply reads_only_get_settings
    | apply reads_only_if
    | apply reads_only_bind; [|intros ?] ].
Qed.

(** C7. Two instances with the same version, settings and options,
    whatever else differs, get the same variable assignments from
    [generate], or the same error; [generate] leaves the instance as it
    was, so a second invocation gives the same assignments again. *)
Theorem C7_generate_deterministic (self1 self2 : ConanFile) :
  version self1 = version self2 →
  settings self1 = settings self2 →
  options self1 = options self2 →
  (∀ tc self1',
     generate self1 = Ok tc self1' →
     self1' = self1 ∧ generate self2 = Ok tc self2 ∧
     generate self1' = Ok tc self1') ∧
  (∀ e, generate self1 = Raise e → generate self2 = Raise e).
Proof.
  intros Hv Hs Ho.
  pose proof (generate_reads_only self1 self2 (Build_frame _ _
                (eq_sym Hv) (eq_sym Hs) (eq_sym Ho))) as H.
  destruct (generate self1) as [tc1 s1'|e1] eqn:H1,
    (generate self2) as [tc2 s2'|e2] eqn:H2; try done.
  - destruct H as (-> & -> & ->). split; [|done].
    intros tc s [= -> ->]. by rewrite H1.
  - subst. split; [done|]. by intros e [= ->].
Qed.

Lemma C7_generate_deterministic_witness :
  version configured = version configured_later ∧
  settings configured = settings configured_later ∧
  options configured = options configured_later ∧
  (∀ tc self1',
     generate configured = Ok tc self1' →
     self1' = configured ∧ generate configured_later = Ok tc configured_later ∧
     generate self1' = Ok tc self1') ∧
  (∀ e, generate configured = Raise e → generate configured_later = Raise e).
Proof.
  split; [reflexivity|]. split; [reflexivity|]. split; [reflexivity|].
  apply (C7_generate_deterministic configured configured_later);
    reflexivity.
Defined.

(** * Further properties of the recipe *)

(** ** Option resolution: what is removed and what is kept *)

Lemma resolved_lookup_fPIC v s ov r :
  resolved v s ov r →
  options r !! "fPIC" =
    if String.eqb (os s) "Windows" ||
       truthy_safe ((ov ∪ default_options) !! "shared")
    then None else (ov ∪ default_options) !! "fPIC".
Proof.
  intros Hr. rewrite (resolved_options _ _ _ _ Hr).
  unfold options_after_configure.
  rewrite (options_after_config_kept _ _ _ "shared") by not_listed.
  unfold options_after_config.
  destruct (String.eqb (os s) "Windows"), (ge v (V "2.0")),
    (truthy_safe _); simpl;
    rewrite ?lookup_delete_eq, ?(lookup_delete_ne _ _ "fPIC") by done;
    by rewrite ?lookup_delete_eq.
Qed.

(** X1. The option fPIC survives the option resolution exactly when the
    platform is not Windows and the library is not shared; it then has
    the value of the overlay, or else its default. *)
Theorem X1_fPIC_resolution (v : Version) (s : Settings)
    (ov : gmap string OptVal) :
  ∃ r shared,
    resolve_options (instantiate v s ov) = Ok () r ∧
    options (instantiate v s ov) !! "shared" = Some shared ∧
    (os s = "Windows" ∨ truthy shared = true →
     options r !! "fPIC" = None) ∧
    (os s ≠ "Windows" → truthy shared = false →
     options r !! "fPIC" = Some (default OTrue (ov !! "fPIC"))).
Proof.
  destruct (resolve_options_run v s ov) as (r & Hres & Hr).
  destruct (instantiate_declared v s ov "shared") as [sh Hsh];
    [by eexists|].
  exists r, sh. split; [done|]. split; [done|].
  rewrite (resolved_lookup_fPIC _ _ _ _ Hr). simpl in Hsh. rewrite Hsh.
  simpl. split.
  - intros [-> | ->]; [done|]. by rewrite orb_true_r.
  - intros Hos%String.eqb_neq ->. rewrite Hos. simpl.
    rewrite lookup_union. by destruct (ov !! "fPIC").
Qed.

(** X2. The option resolution never adds an option and never changes a
    value: what it leaves has the value of the instance; and it keeps
    every option other than fPIC and the three backend options. *)
Theorem X2_resolution_keeps_values (v : Version) (s : Settings)
    (ov : gmap string OptVal) :
  ∃ r,
    resolve_options (instantiate v s ov) = Ok () r ∧
    (∀ k x, options r !! k = Some x →
            options (instantiate v s ov) !! k = Some x) ∧
    (∀ k, k ∉ ["fPIC"; "use_TBB"; "use_CXX11_threads"; "use_CXX11"] →
          options r !! k = options (instantiate v s ov) !! k) ∧
    version r = v ∧ settings r = s.
Proof.
  destruct (resolve_options_run v s ov) as (r & Hres & Hr).
  exists r. split; [done|]. split; [|split].
  - intros k x. rewrite (resolved_options _ _ _ _ Hr).
    unfold options_after_configure, options_after_config. simpl.
    destruct (truthy_safe _), (String.eqb (os s) "Windows"),
      (ge v (V "2.0")); intros H;
      repeat (apply lookup_delete_Some in H as [_ H]); done.
  - intros k Hk. by apply (resolved_lookup_kept _ _ _ _ _ Hr).
  - split; [apply (resolved_version _ _ _ _ Hr)
           |apply (resolved_settings _ _ _ _ Hr)].
Qed.

(** X3. Below version 2.0 the three backend options are still there after
    the option resolution, with the value of the overlay or else the
    default False. *)
Theorem X3_backend_options_below_2 (v : Version) (s : Settings)
    (ov : gmap string OptVal) :
  ge v (V "2.0") = false →
  ∃ r,
    resolve_options (instantiate v s ov) = Ok () r ∧
    ∀ k, k ∈ ["use_TBB"; "use_CXX11_threads"; "use_CXX11"] →
         options r !! k = Some (default OFalse (ov !! k)).
Proof.
  intros Hge.
  destruct (resolve_options_run v s ov) as (r & Hres & Hr).
  exists r. split; [done|]. intros k Hk.
  rewrite (resolved_lookup_backend _ _ _ _ _ Hr Hk), Hge, lookup_union.
  apply list_elem_of_In in Hk. simpl in Hk.
  destruct Hk as [<-|[<-|[<-|[]]]]; by destruct (ov !! _).
Qed.

Lemma X3_backend_options_below_2_witness :
  ge (V "1.14.0") (V "2.0") = false ∧
  ∃ r,
    resolve_options
      (instantiate (V "1.14.0") (linux_gcc "Release") {["use_TBB" := OTrue]})
      = Ok () r ∧
    ∀ k, k ∈ ["use_TBB"; "use_CXX11_threads"; "use_CXX11"] →
         options r !! k =
           Some (default OFalse (({["use_TBB" := OTrue]} : gmap string OptVal)
                                   !! k)).
Proof.
  split; [reflexivity|].
  apply (X3_backend_options_below_2 (V "1.14.0") (linux_gcc "Release")
           {["use_TBB" := OTrue]}).
  reflexivity.
Defined.

(** X4. When the overlay gives declared options values they allow, every
    option the resolution leaves is a declared option with one of its
    values. *)
Theorem X4_resolved_values_allowed (v : Version) (s : Settings)
    (ov : gmap string OptVal) :
  valid_overlay ov →
  ∃ r,
    resolve_options (instantiate v s ov) = Ok () r ∧
    ∀ k x, options r !! k = Some x →
           ∃ values, options_decl !! k = Some values ∧ x ∈ values.
Proof.
  intros Hov.
  destruct (resolve_options_run v s ov) as (r & Hres & Hr).
  exists r. split; [done|]. intros k x Hk.
  pose proof (resolved_options_allowed _ _ _ _ Hov Hr k x Hk) as Ha.
  unfold allowed in Ha. destruct (options_decl !! k) as [values|].
  - by exists values.
  - by apply elem_of_nil in Ha.
Qed.

Lemma X4_resolved_values_allowed_witness :
  valid_overlay example_overlay ∧
  ∃ r,
    resolve_options
      (instantiate (V "2.2.0") (linux_gcc "Release") example_overlay)
      = Ok () r ∧
    ∀ k x, options r !! k = Some x →
           ∃ values, options_decl !! k = Some values ∧ x ∈ values.
Proof.
  assert (valid_overlay example_overlay) as H.
  { apply (bool_decide_unpack _). vm_compute. exact I. }
  split; [exact H|].
  apply (X4_resolved_values_allowed (V "2.2.0") (linux_gcc "Release")
           example_overlay H).
Defined.

(** ** Requirements and dependency edges *)

(** X5. On every configuration [requirements] returns and declares eigen
    first, then glog exactly when [use_glog] is enabled, then onetbb
    exactly when the version is below 2.0 and [use_TBB] is enabled: from
    2.0 on an overlay that enables [use_TBB] requires nothing. *)
Theorem X5_requirements (v : Version) (s : Settings)
    (ov : gmap string OptVal) :
  ∃ r q,
    resolve_options (instantiate v s ov) = Ok () r ∧
    requirements r = Ok () q ∧
    requires q =
      ([eigen] ++
       (if truthy (default OFalse (ov !! "use_glog")) then [glog] else []) ++
       (if negb (ge v (V "2.0")) && truthy (default OFalse (ov !! "use_TBB"))
        then [onetbb] else []))%list.
Proof.
  destruct (resolve_options_run v s ov) as (r & Hres & Hr).
  assert (options r !! "use_glog" = Some (default OFalse (ov !! "use_glog")))
    as Hgl.
  { rewrite (resolved_lookup_kept _ _ _ _ _ Hr) by not_listed.
    rewrite lookup_union. by destruct (ov !! "use_glog"). }
  destruct (requirements_run r _ Hgl) as (q & Hreq & Hq).
  exists r, q. split; [done|]. split; [done|].
  rewrite Hq, (resolved_requires _ _ _ _ Hr).
  rewrite (resolved_lookup_backend _ _ _ _ "use_TBB" Hr) by listed.
  destruct (ge v (V "2.0")); simpl; [done|].
  rewrite lookup_union. by destruct (ov !! "use_TBB").
Qed.

(** X6. The dependency edges of the component are the targets of the
    declared requirements, in the same order: [package_info] lists a
    package exactly when [requirements] requires it. *)
Theorem X6_edges_match_requirements (v : Version) (s : Settings)
    (ov : gmap string OptVal) :
  ∃ r q d,
    resolve_options (instantiate v s ov) = Ok () r ∧
    requirements r = Ok () q ∧
    package_info r = Ok () d ∧
    Component.requires (ceres d) = target_of <$> requires q.
Proof.
  destruct (resolve_options_run v s ov) as (r & Hres & Hr).
  destruct (resolved_present _ _ _ r "use_glog" Hr) as [gl Hgl];
    [not_listed | by eexists |].
  destruct (requirements_run r _ Hgl) as (q & Hreq & Hq).
  destruct (describe_resolved _ _ _ _ Hr) as (d & Hrun & _ & Hd).
  exists r, q, d. repeat (split; [done|]).
  rewrite (described_requires _ _ _ Hd), Hq, (resolved_requires _ _ _ _ Hr),
    Hgl.
  simpl. by destruct (truthy gl), (truthy_safe _).
Qed.

(** ** The table of toolchain variables *)

Lemma generate_variables self :
  is_Some (options self !! "use_glog") →
  is_Some (options self !! "use_schur_specializations") →
  is_Some (options self !! "use_custom_blas") →
  is_Some (options self !! "use_eigen_sparse") →
  is_Some (options self !! "use_cuda") →
  (ge (version self) (V "2.0.0") = false →
   is_Some (options self !! "use_CXX11") ∧
   is_Some (options self !! "use_TBB") ∧
   is_Some (options self !! "use_CXX11_threads")) →
  generate self =
    Ok (variables (version self) (settings self) (options self)) self.
Proof.
  intros [gl Hgl] [sc Hsc] [cb Hcb] [es Hes] [cu Hcu] Hlegacy.
  destruct self as [v s o out req treq inf ci].
  cbv [version settings options] in *.
  cbv [generate variables option_value bind option_get get_version
       get_settings ret version settings options].
  rewrite Hgl, Hsc, Hcb, Hes, Hcu. cbv beta iota.
  rewrite !lt_negb_ge.
  destruct (ge v (V "2.2.0")) eqn:H22;
    [pose proof (ge_2_2_ge_2_1 v H22) as H21;
     pose proof (ge_2_1_ge_2_0 v H21) as H20
    |destruct (ge v (V "2.1.0")) eqn:H21;
     [pose proof (ge_2_1_ge_2_0 v H21) as H20
     |destruct (ge v (V "2.0.0")) eqn:H20]];
    rewrite ?H21, ?H20; cbv beta iota delta [negb]; rewrite ?Hcu;
    cbv beta iota.
  4: { destruct (Hlegacy eq_refl) as ([c11 Hc11] & [tbb Htbb] & [thr Hthr]).
       rewrite Hc11, Htbb, Hthr. cbv beta iota.
       destruct (is_apple_os s), (is_msvc s), (String.eqb (os s) "iOS");
         exact eq_refl. }
  all: destruct (is_apple_os s), (is_msvc s), (String.eqb (os s) "iOS");
    exact eq_refl.
Qed.

Lemma generate_variables_resolved v s ov r :
  resolved v s ov r → generate r = Ok (variables v s (options r)) r.
Proof.
  intros Hr.
  rewrite <- (resolved_version _ _ _ _ Hr) at 1.
  rewrite <- (resolved_settings _ _ _ _ Hr) at 1.
  apply generate_variables.
  1-5: apply (resolved_present _ _ _ _ _ Hr); [not_listed | by eexists].
  rewrite (resolved_version _ _ _ _ Hr), <- ge_2_0. intros Hge.
  rewrite !(resolved_lookup_backend _ _ _ _ _ Hr), Hge by listed.
  rewrite !lookup_union_is_Some. repeat split; right; by eexists.
Qed.

(** Reads a variable off the table. *)
Ltac variables_lookup v s :=
  unfold variables;
  destruct (ge v (V "2.2.0")), (ge v (V "2.1.0")), (ge v (V "2.0.0")),
    (is_msvc s), (is_apple_os s), (String.eqb (os s) "iOS");
  exact eq_refl.

Lemma variables_common v s o :
  variables v s o !! "MINIGLOG" =
    Some (VBool (negb (truthy_safe (o !! "use_glog")))) ∧
  variables v s o !! "SCHUR_SPECIALIZATIONS" =
    Some (option_value o "use_schur_specializations") ∧
  variables v s o !! "CUSTOM_BLAS" = Some (option_value o "use_custom_blas") ∧
  variables v s o !! "EIGENSPARSE" =
    Some (option_value o "use_eigen_sparse") ∧
  ∀ k, k ∈ ["GFLAGS"; "SUITESPARSE"; "LAPACK"; "BUILD_TESTING";
             "BUILD_DOCUMENTATION"; "BUILD_EXAMPLES"; "BUILD_BENCHMARKS"] →
       variables v s o !! k = Some (VBool false).
Proof.
  repeat split; try by variables_lookup v s.
  intros k Hk. apply list_elem_of_In in Hk. simpl in Hk.
  destruct Hk as [<-|[<-|[<-|[<-|[<-|[<-|[<-|[]]]]]]]];
    by variables_lookup v s.
Qed.

Lemma variables_platform v s o :
  variables v s o !! "ACCELERATESPARSE" =
    (if ge v (V "2.0.0") && is_apple_os s then Some (VBool true) else None) ∧
  variables v s o !! "MSVC_USE_STATIC_CRT" =
    (if lt v (V "2.2.0") && is_msvc s
     then Some (VBool (is_msvc_static_runtime s)) else None) ∧
  variables v s o !! "IOS_DEPLOYMENT_TARGET" =
    (if String.eqb (os s) "iOS"
     then Some (from_option VStr VNone (os_version s)) else None).
Proof. rewrite lt_negb_ge. repeat split; by variables_lookup v s. Qed.

(** X7. MINIGLOG is assigned for every configuration, and it is true
    exactly when glog is not a requirement and exactly when the
    descriptor exposes the miniglog include directory. *)
Theorem X7_miniglog_consistent (v : Version) (s : Settings)
    (ov : gmap string OptVal) :
  ∃ r tc q d b,
    resolve_options (instantiate v s ov) = Ok () r ∧
    generate r = Ok tc r ∧
    requirements r = Ok () q ∧
    package_info r = Ok () d ∧
    tc !! "MINIGLOG" = Some (VBool b) ∧
    (b = true ↔ glog ∉ requires q) ∧
    (b = true ↔
     "include/ceres/internal/miniglog" ∈ Component.includedirs (ceres d)).
Proof.
  destruct (resolve_options_run v s ov) as (r & Hres & Hr).
  destruct (resolved_present _ _ _ r "use_glog" Hr) as [gl Hgl];
    [not_listed | by eexists |].
  destruct (requirements_run r _ Hgl) as (q & Hreq & Hq).
  destruct (describe_resolved _ _ _ _ Hr) as (d & Hrun & _ & Hd).
  exists r, (variables v s (options r)), q, d, (negb (truthy gl)).
  split; [done|]. split; [by apply (generate_variables_resolved _ _ ov)|].
  split; [done|]. split; [done|].
  destruct (variables_common v s (options r)) as (-> & _).
  rewrite Hgl. split; [done|].
  rewrite Hq, (resolved_requires _ _ _ _ Hr),
    (described_includedirs _ _ _ Hd), Hgl. simpl.
  destruct (truthy gl); simpl.
  - split; (split; [done|]); intros H; exfalso.
    + apply H. apply elem_of_cons. right. apply elem_of_cons. by left.
    + repeat (apply elem_of_cons in H as [H|H]; [done|]).
      by apply elem_of_nil in H.
  - split; (split; [intros _|done]).
    + destruct (truthy_safe _); rewrite !not_elem_of_cons;
        repeat split; try done; apply not_elem_of_nil.
    + do 2 (apply elem_of_cons; right). apply elem_of_cons. by left.
Qed.

(** X8. The translation depends on the version only through its place
    relative to 2.0.0, 2.1.0 and 2.2.0: two versions on the same side of
    the three thresholds get the same variables with the same values. *)
Theorem X8_same_range_same_variables (v v' : Version) (s : Settings)
    (ov : gmap string OptVal) :
  ge v (V "2.0.0") = ge v' (V "2.0.0") →
  ge v (V "2.1.0") = ge v' (V "2.1.0") →
  ge v (V "2.2.0") = ge v' (V "2.2.0") →
  ∃ r r' tc,
    resolve_options (instantiate v s ov) = Ok () r ∧
    resolve_options (instantiate v' s ov) = Ok () r' ∧
    generate r = Ok tc r ∧
    generate r' = Ok tc r'.
Proof.
  intros H20 H21 H22.
  destruct (resolve_options_run v s ov) as (r & Hres & Hr).
  destruct (resolve_options_run v' s ov) as (r' & Hres' & Hr').
  exists r, r', (variables v s (options r)).
  split; [done|]. split; [done|].
  split; [by apply (generate_variables_resolved _ _ ov)|].
  rewrite (generate_variables_resolved _ _ ov _ Hr'). f_equal.
  rewrite (resolved_options _ _ _ _ Hr), (resolved_options _ _ _ _ Hr').
  unfold options_after_config, variables.
  by rewrite !ge_2_0, H20, H21, H22.
Qed.

Lemma X8_same_range_same_variables_witness :
  ge (V "2.0.0") (V "2.0.0") = ge (V "2.0.5") (V "2.0.0") ∧
  ge (V "2.0.0") (V "2.1.0") = ge (V "2.0.5") (V "2.1.0") ∧
  ge (V "2.0.0") (V "2.2.0") = ge (V "2.0.5") (V "2.2.0") ∧
  ∃ r r' tc,
    resolve_options
      (instantiate (V "2.0.0") (linux_gcc "Release") example_overlay)
      = Ok () r ∧
    resolve_options
      (instantiate (V "2.0.5") (linux_gcc "Release") example_overlay)
      = Ok () r' ∧
    generate r = Ok tc r ∧
    generate r' = Ok tc r'.
Proof.
  split; [reflexivity|]. split; [reflexivity|]. split; [reflexivity|].
  apply (X8_same_range_same_variables (V "2.0.0") (V "2.0.5")
           (linux_gcc "Release") example_overlay); reflexivity.
Defined.

(** X9. The gated variables exclude each other as the ranges do: for
    every configuration exactly one of EIGENMETIS and CXSPARSE is
    assigned, USE_CUDA and CUDA are never both assigned, CUDA and
    LIB_SUFFIX are never both assigned, and the variables of the older
    ranges are nested (OPENMP only with LIB_SUFFIX, LIB_SUFFIX only with
    CXSPARSE). *)
Theorem X9_gated_variables_exclusive (v : Version) (s : Settings)
    (ov : gmap string OptVal) :
  ∃ r tc,
    resolve_options (instantiate v s ov) = Ok () r ∧
    generate r = Ok tc r ∧
    (is_Some (tc !! "EIGENMETIS") ↔ tc !! "CXSPARSE" = None) ∧
    ¬ (is_Some (tc !! "USE_CUDA") ∧ is_Some (tc !! "CUDA")) ∧
    ¬ (is_Some (tc !! "CUDA") ∧ is_Some (tc !! "LIB_SUFFIX")) ∧
    (is_Some (tc !! "OPENMP") → is_Some (tc !! "LIB_SUFFIX")) ∧
    (is_Some (tc !! "LIB_SUFFIX") → is_Some (tc !! "CXSPARSE")).
Proof.
  destruct (resolve_options_run v s ov) as (r & Hres & Hr).
  destruct (generate_resolved _ _ _ _ Hr) as (tc & Hgen & Hg).
  destruct (resolved_present _ _ _ r "use_cuda" Hr) as [cu Hcu];
    [not_listed | by eexists |].
  exists r, tc. split; [done|]. split; [done|].
  rewrite (gated_EIGENMETIS _ _ _ Hg), (gated_CXSPARSE _ _ _ Hg),
    (gated_USE_CUDA _ _ _ Hg), (gated_CUDA _ _ _ Hg),
    (gated_LIB_SUFFIX _ _ _ Hg), (gated_OPENMP _ _ _ Hg), Hcu, !lt_negb_ge.
  destruct (ge v (V "2.2.0")) eqn:H22;
    [pose proof (ge_2_2_ge_2_1 v H22) as H21;
     pose proof (ge_2_1_ge_2_0 v H21) as H20
    |destruct (ge v (V "2.1.0")) eqn:H21;
     [pose proof (ge_2_1_ge_2_0 v H21) as H20
     |destruct (ge v (V "2.0.0")) eqn:H20]];
    rewrite ?H21, ?H20; simpl;
    repeat split; try done; try (by intros [? ?]);
    try (by intros [[? ?] [? ?]]); try (by intros [? [? ?]]);
    try (by intros [[? ?] ?]); by eexists.
Qed.

(** X10. The two platform special cases: IOS_DEPLOYMENT_TARGET is
    assigned exactly on iOS, with the version of the operating system
    (None when the settings give none); MSVC_USE_STATIC_CRT is assigned
    exactly for the Microsoft compilers below version 2.2.0. *)
Theorem X10_platform_variables (v : Version) (s : Settings)
    (ov : gmap string OptVal) :
  ∃ r tc,
    resolve_options (instantiate v s ov) = Ok () r ∧
    generate r = Ok tc r ∧
    tc !! "IOS_DEPLOYMENT_TARGET" =
      (if String.eqb (os s) "iOS"
       then Some (from_option VStr VNone (os_version s)) else None) ∧
    tc !! "MSVC_USE_STATIC_CRT" =
      (if lt v (V "2.2.0") && is_msvc s
       then Some (VBool (is_msvc_static_runtime s)) else None).
Proof.
  destruct (resolve_options_run v s ov) as (r & Hres & Hr).
  exists r, (variables v s (options r)). split; [done|].
  split; [by apply (generate_variables_resolved _ _ ov)|].
  by destruct (variables_platform v s (options r)) as (_ & -> & ->).
Qed.

(** X11. The eleven variables that are not gated depend on the options
    alone: two configurations with the same overlay, whatever their
    versions and platforms, give them the same values; seven of them are
    False for every configuration. *)
Theorem X11_common_variables (v v' : Version) (s s' : Settings)
    (ov : gmap string OptVal) :
  ∃ r r' tc tc',
    resolve_options (instantiate v s ov) = Ok () r ∧
    resolve_options (instantiate v' s' ov) = Ok () r' ∧
    generate r = Ok tc r ∧
    generate r' = Ok tc' r' ∧
    (∀ k, k ∈ ["MINIGLOG"; "SCHUR_SPECIALIZATIONS"; "CUSTOM_BLAS";
               "EIGENSPARSE"; "GFLAGS"; "SUITESPARSE"; "LAPACK";
               "BUILD_TESTING"; "BUILD_DOCUMENTATION"; "BUILD_EXAMPLES";
               "BUILD_BENCHMARKS"] →
          is_Some (tc !! k) ∧ tc !! k = tc' !! k) ∧
    (∀ k, k ∈ ["GFLAGS"; "SUITESPARSE"; "LAPACK"; "BUILD_TESTING";
               "BUILD_DOCUMENTATION"; "BUILD_EXAMPLES"; "BUILD_BENCHMARKS"] →
          tc !! k = Some (VBool false)).
Proof.
  destruct (resolve_options_run v s ov) as (r & Hres & Hr).
  destruct (resolve_options_run v' s' ov) as (r' & Hres' & Hr').
  exists r, r', (variables v s (options r)), (variables v' s' (options r')).
  split; [done|]. split; [done|].
  split; [by apply (generate_variables_resolved _ _ ov)|].
  split; [by apply (generate_variables_resolved _ _ ov)|].
  destruct (variables_common v s (options r)) as (H1 & H2 & H3 & H4 & H5).
  destruct (variables_common v' s' (options r')) as (H1' & H2' & H3' & H4' & H5').
  split; [|done].
  assert (∀ k, k ∉ "fPIC" :: backend_options →
               options r !! k = options r' !! k) as Hsame.
  { intros k Hk. by rewrite (resolved_lookup_kept _ _ _ _ _ Hr Hk),
      (resolved_lookup_kept _ _ _ _ _ Hr' Hk). }
  intros k Hk. apply list_elem_of_In in Hk. simpl in Hk.
  destruct Hk as [<-|[<-|[<-|[<-|Hk]]]].
  - rewrite H1, H1', (Hsame "use_glog") by not_listed. by split.
  - rewrite H2, H2'. unfold option_value.
    rewrite (Hsame "use_schur_specializations") by not_listed. by split.
  - rewrite H3, H3'. unfold option_value.
    rewrite (Hsame "use_custom_blas") by not_listed. by split.
  - rewrite H4, H4'. unfold option_value.
    rewrite (Hsame "use_eigen_sparse") by not_listed. by split.
  - rewrite H5, H5' by (apply list_elem_of_In; simpl; tauto). by split.
Qed.

(** ** Validation across versions and compilers *)

Lemma string_compare_lt_trans (a b c : string) :
  String.compare a b = Lt → String.compare b c = Lt →
  String.compare a c = Lt.
Proof.
  revert b c. induction a as [|x a IH]; intros [|y b] [|z c]; simpl;
    try done.
  unfold Ascii.compare.
  destruct (N.compare_spec (N_of_ascii x) (N_of_ascii y)) as [Hxy|Hxy|Hxy],
    (N.compare_spec (N_of_ascii y) (N_of_ascii z)) as [Hyz|Hyz|Hyz];
    try done; intros H1 H2.
  - rewrite Hxy, Hyz, N.compare_refl. by eapply IH.
  - rewrite Hxy. by apply N.compare_lt_iff in Hyz as ->.
  - rewrite <- Hyz. by apply N.compare_lt_iff in Hxy as ->.
  - assert (N_of_ascii x < N_of_ascii z)%N as Hxz by lia.
    by apply N.compare_lt_iff in Hxz as ->.
Qed.

Lemma string_ltb_trans (a b c : string) :
  String.ltb a b = true → String.ltb b c = true → String.ltb a c = true.
Proof.
  unfold String.ltb. intros H1 H2.
  destruct (String.compare a b) eqn:Hab; try done.
  destruct (String.compare b c) eqn:Hbc; try done.
  by rewrite (string_compare_lt_trans _ _ _ Hab Hbc).
Qed.

(** No language standard is older than the one of 1998. *)
Lemma cppstd_lower_98 c : cppstd_lower c "98" = false.
Proof.
  unfold cppstd_lower, add_millennium.
  destruct (String.eqb_spec (extract_cpp_version c) "98") as [->|_]; done.
Qed.

Lemma cppstd_lower_14_17 c :
  cppstd_lower c "14" = true → cppstd_lower c "17" = true.
Proof.
  unfold cppstd_lower. intros H. by eapply string_ltb_trans.
Qed.

(** An older version passes the version tests a newer one fails. *)
Lemma ge_mono (v' v t : Version) :
  lt v' v = true → ge v' t = true → ge v t = true.
Proof.
  unfold ge. rewrite !negb_true_iff. intros Hlt Hge.
  destruct (lt v t) eqn:Hvt; [|done].
  by rewrite (lt_trans _ _ _ Hlt Hvt) in Hge.
Qed.

Lemma table_lookup_cases (l : list (string * string)) k m :
  (list_to_map l : gmap string string) !! k = Some m → (k, m) ∈ l.
Proof. apply elem_of_list_to_map_2. Qed.

(** A compiler too old for the standard of 2014 is too old for the one
    of 2017. *)
Lemma too_old_14_17 (cv : Version) (comp : string) m14 :
  default ∅ (compilers_minimum_version_table !! "14") !! comp = Some m14 →
  lt cv (V m14) = true →
  ∃ m17,
    default ∅ (compilers_minimum_version_table !! "17") !! comp = Some m17 ∧
    lt cv (V m17) = true.
Proof.
  rewrite table_14, table_17. cbn [default from_option id].
  intros Hm Hlt. apply table_lookup_cases in Hm.
  repeat (apply elem_of_cons in Hm as [[= -> ->]|Hm];
          [eexists; split; [exact eq_refl|];
           by apply (lt_trans _ _ _ Hlt)|]).
  by apply elem_of_nil in Hm.
Qed.

Lemma below_minimum_same_standard self self' :
  settings self' = settings self →
  required_cppstd (version self') = required_cppstd (version self) →
  below_minimum self' = below_minimum self.
Proof.
  intros Hs Hv.
  unfold below_minimum, cppstd_too_low, compiler_too_old.
  by rewrite Hs, Hv.
Qed.

Lemma below_minimum_98 self :
  required_cppstd (version self) = "98" → below_minimum self = false.
Proof.
  intros Hv. unfold below_minimum, cppstd_too_low, compiler_too_old.
  rewrite Hv, table_98. simpl. rewrite lookup_empty, orb_false_r.
  destruct (compiler_cppstd (settings self)) as [c|]; [|done].
  by rewrite cppstd_lower_98, andb_false_r.
Qed.

Lemma below_minimum_14_17 self self' :
  settings self' = settings self →
  required_cppstd (version self') = "14" →
  required_cppstd (version self) = "17" →
  below_minimum self = false → below_minimum self' = false.
Proof.
  intros Hs Hv' Hv.
  unfold below_minimum, cppstd_too_low, compiler_too_old.
  rewrite Hs, Hv', Hv. rewrite !orb_false_iff. intros [Hc Ho]. split.
  - destruct (compiler_cppstd (settings self)) as [c|]; [|done].
    destruct (negb (String.eqb c "")); [|done]. simpl in *.
    destruct (cppstd_lower c "14") eqn:H14; [|done].
    by rewrite (cppstd_lower_14_17 _ H14) in Hc.
  - destruct (default ∅ (compilers_minimum_version_table !! "14")
                !! compiler (settings self)) as [m14|] eqn:Hm; [|done].
    destruct (lt (compiler_version (settings self)) (V m14)) eqn:Hlt;
      [|done].
    destruct (too_old_14_17 _ _ _ Hm Hlt) as (m17 & Hm17 & Hlt17).
    by rewrite Hm17, Hlt17 in Ho.
Qed.

(** X12. The required language standard never goes down as the version
    goes up. *)
Theorem X12_min_cppstd_monotone (self self' : ConanFile) :
  lt (version self') (version self) = true →
  ∃ std std',
    _min_cppstd self = Ok std self ∧
    _min_cppstd self' = Ok std' self' ∧
    cppstd_lower std std' = false.
Proof.
  intros Hlt. exists (required_cppstd (version self)),
    (required_cppstd (version self')).
  rewrite !min_cppstd_run. split; [done|]. split; [done|].
  unfold required_cppstd.
  destruct (ge (version self') (V "2.2.0")) eqn:H22'.
  { by rewrite (ge_mono _ _ _ Hlt H22'). }
  destruct (ge (version self') (V "2.0.0")) eqn:H20'.
  { rewrite (ge_mono _ _ _ Hlt H20').
    by destruct (ge (version self) (V "2.2.0")). }
  by destruct (ge (version self) (V "2.2.0")),
    (ge (version self) (V "2.0.0")).
Qed.

Lemma X12_min_cppstd_monotone_witness :
  lt (version (instantiate (V "2.1.0") (linux_gcc "Release") ∅))
     (version configured) = true ∧
  ∃ std std',
    _min_cppstd configured = Ok std configured ∧
    _min_cppstd (instantiate (V "2.1.0") (linux_gcc "Release") ∅)
      = Ok std' (instantiate (V "2.1.0") (linux_gcc "Release") ∅) ∧
    cppstd_lower std std' = false.
Proof.
  split; [reflexivity|].
  apply (X12_min_cppstd_monotone configured
           (instantiate (V "2.1.0") (linux_gcc "Release") ∅)).
  reflexivity.
Defined.

(** X13. For a version below 2.0.0 [validate] accepts every compiler,
    compiler version and language standard. *)
Theorem X13_validate_below_2 (self : ConanFile) :
  ge (version self) (V "2.0.0") = false →
  validate self = Ok () self.
Proof.
  intros H20. rewrite validate_run, below_minimum_98; [done|].
  unfold required_cppstd. rewrite H20.
  destruct (ge (version self) (V "2.2.0")) eqn:H22; [|done].
  by rewrite (ge_2_1_ge_2_0 _ (ge_2_2_ge_2_1 _ H22)) in H20.
Qed.

Lemma X13_validate_below_2_witness :
  let self :=
    instantiate (V "1.14.0")
      {| os := "Linux"; os_version := None; arch := "x86_64";
         compiler := "gcc"; compiler_version := V "4.4";
         compiler_cppstd := Some "gnu98"; compiler_libcxx := None;
         compiler_runtime := None; build_type := "Release" |} ∅ in
  ge (version self) (V "2.0.0") = false ∧ validate self = Ok () self.
Proof.
  intros self. split; [reflexivity|].
  apply (X13_validate_below_2 self). reflexivity.
Defined.

(** X14. A compiler that the recipe's table does not list is never found
    too old: [validate] then fails only for a language standard set
    below the required one, and accepts every version when none is
    set. *)
Theorem X14_validate_unlisted_compiler (self : ConanFile) :
  compiler (settings self) ∉ listed_compilers →
  validate self =
    (if cppstd_too_low self then Raise ConanInvalidConfiguration
     else Ok () self) ∧
  (compiler_cppstd (settings self) = None → validate self = Ok () self).
Proof.
  intros Hc.
  assert (compiler_too_old self = false) as Hold.
  { unfold compiler_too_old, required_cppstd.
    destruct (ge (version self) (V "2.2.0")), (ge (version self) (V "2.0.0"));
      rewrite ?table_17, ?table_14, ?table_98; cbn [default from_option id];
      rewrite ?lookup_empty; try done;
      (rewrite not_elem_of_list_to_map_1; [done | exact Hc]). }
  rewrite validate_run. unfold below_minimum. rewrite Hold, orb_false_r.
  split; [done|]. intros Hnone. unfold cppstd_too_low. by rewrite Hnone.
Qed.

Lemma X14_validate_unlisted_compiler_witness :
  let self :=
    instantiate (V "2.2.0")
      {| os := "Linux"; os_version := None; arch := "x86_64";
         compiler := "intel-cc"; compiler_version := V "2021.3";
         compiler_cppstd := None; compiler_libcxx := Some "libstdc++11";
         compiler_runtime := None; build_type := "Release" |} ∅ in
  (compiler (settings self) ∉ listed_compilers) ∧
  validate self =
    (if cppstd_too_low self then Raise ConanInvalidConfiguration
     else Ok () self) ∧
  (compiler_cppstd (settings self) = None → validate self = Ok () self).
Proof.
  intros self.
  assert (compiler (settings self) ∉ listed_compilers) as H.
  { apply (bool_decide_unpack _). vm_compute. exact I. }
  split; [exact H|]. apply (X14_validate_unlisted_compiler self H).
Defined.

(** X15. What [validate] accepts for a version it accepts for every
    older version, on the same platform. *)
Theorem X15_validate_monotone (self self' : ConanFile) :
  settings self' = settings self →
  lt (version self') (version self) = true →
  validate self = Ok () self →
  validate self' = Ok () self'.
Proof.
  intros Hs Hlt. rewrite !validate_run.
  destruct (below_minimum self) eqn:Hb; [done|]. intros _.
  assert (below_minimum self' = false) as ->; [|done].
  destruct (ge (version self') (V "2.0.0")) eqn:H20'.
  2: { apply below_minimum_98. unfold required_cppstd. rewrite H20'.
       destruct (ge (version self') (V "2.2.0")) eqn:H22; [|done].
       by rewrite (ge_2_1_ge_2_0 _ (ge_2_2_ge_2_1 _ H22)) in H20'. }
  pose proof (ge_mono _ _ _ Hlt H20') as H20.
  destruct (ge (version self') (V "2.2.0")) eqn:H22'.
  { pose proof (ge_mono _ _ _ Hlt H22') as H22.
    rewrite <- Hb. apply below_minimum_same_standard; [done|].
    unfold required_cppstd. by rewrite H22, H22'. }
  destruct (ge (version self) (V "2.2.0")) eqn:H22.
  - apply (below_minimum_14_17 self); try done;
      unfold required_cppstd; by rewrite ?H22, ?H22', ?H20, ?H20'.
  - rewrite <- Hb. apply below_minimum_same_standard; [done|].
    unfold required_cppstd. by rewrite H22, H22', H20, H20'.
Qed.

Lemma X15_validate_monotone_witness :
  let self' := instantiate (V "2.1.0") (linux_gcc "Release") ∅ in
  settings self' = settings configured ∧
  lt (version self') (version configured) = true ∧
  validate configured = Ok () configured ∧
  validate self' = Ok () self'.
Proof.
  intros self'. split; [reflexivity|]. split; [reflexivity|].
  split; [reflexivity|].
  apply (X15_validate_monotone configured self'); reflexivity.
Defined.

(** ** The rest of the descriptor *)

Ltac proj_simpl_more :=
  cbn [Component.frameworks Component.build_modules Component.properties
       Upd.set_libs Upd.libs_append Upd.includedirs_append
       Upd.system_libs_append Upd.frameworks_append Upd.set_requires
       Upd.requires_append Upd.set_build_modules Upd.set_property id].

Ltac proj_through_more π :=
  proj_simpl_more;
  repeat (progress
            (rewrite ?(proj_cond π), ?(proj_choose π), ?(proj_with_opt π);
             proj_simpl_more; rewrite ?if_same, ?option_match_same)).

Lemma package_info_run_more self :
  is_Some (options self !! "use_cuda") →
  is_Some (options self !! "use_glog") →
  is_Some (options self !! "shared") →
  ∃ self', package_info self = Ok () self' ∧
           described_more self (ceres self) (ceres self').
Proof.
  intros [cu Hcu] [gl Hgl] [sh Hsh].
  assert (∃ F, runs self package_info F self ∧
               ∀ c, described_more self c (F c)) as (F & HF & Hd).
  { eexists. split.
    - unfold package_info. repeat runs_step.
    - intros c. split;
        destruct (stdcpp_library (settings self)) as [l|].
      + proj_through_more Component.frameworks.
        destruct (bool_decide _), (is_apple_os _), (ge _ _); simpl;
          by rewrite ?app_nil_r.
      + proj_through_more Component.frameworks.
        destruct (bool_decide _), (is_apple_os _), (ge _ _); simpl;
          by rewrite ?app_nil_r.
      + by proj_through_more Component.build_modules.
      + by proj_through_more Component.build_modules.
      + by proj_through_more Component.properties.
      + by proj_through_more Component.properties. }
  apply (λ H, H (frame_refl self)) in HF.
  apply wp_elim in HF as ([] & self' & Hrun & Hf & Hc).
  exists self'. rewrite Hc. done.
Qed.

Section Sets.
Context {A B : Type}.

Lemma sets_ret (a : A) : sets (ret a) id.
Proof. by intros self a' self' [= _ <-]. Qed.

Lemma sets_bind (m : M A) (k : A → M B) f g :
  sets m f → (∀ a, sets (k a) g) → sets (bind m k) (λ x, g (f x)).
Proof.
  intros Hm Hk self b self'. unfold bind.
  destruct (m self) as [a s1|] eqn:H1; [|done].
  intros H2. by rewrite (Hk _ _ _ _ H2), (Hm _ _ _ H1).
Qed.

Lemma sets_read (m : M A) (k : A → M B) g :
  reader m → (∀ a, sets (k a) g) → sets (bind m k) g.
Proof.
  intros Hm Hk self b self'. unfold bind.
  destruct (m self) as [a s1|] eqn:H1; [|done].
  rewrite (Hm _ _ _ H1). apply Hk.
Qed.

Lemma sets_if (b : bool) (m1 m2 : M A) f :
  sets m1 f → sets m2 f → sets (if b then m1 else m2) f.
Proof. by destruct b. Qed.

Lemma sets_option_match {X} (o : option X) (m1 : X → M A) (m2 : M A) f :
  (∀ x, sets (m1 x) f) → sets m2 f →
  sets (match o with Some x => m1 x | None => m2 end) f.
Proof. by destruct o. Qed.
End Sets.

Lemma sets_when b (m : M ()) : sets m id → sets (when b m) id.
Proof. intros Hm. destruct b; [exact Hm | apply sets_ret]. Qed.

Lemma sets_component_update k f : sets (component_update k f) id.
Proof. by intros self a self' [= _ <-]. Qed.

Lemma sets_set_property k v :
  sets (set_property k v) (λ x, (<[k := v]> x.1, x.2)).
Proof. by intros self a self' [= _ <-]. Qed.

Lemma sets_set_name k v :
  sets (set_name k v) (λ x, (x.1, <[k := v]> x.2)).
Proof. by intros self a self' [= _ <-]. Qed.

Lemma reader_option_get k : reader (option_get k).
Proof.
  intros self a self'. unfold option_get.
  destruct (options self !! k); [by intros [= _ <-] | done].
Qed.

Lemma reader_get_safe k : reader (get_safe k).
Proof. by intros self a self' [= _ <-]. Qed.

Lemma reader_get_safe_default k d : reader (get_safe_default k d).
Proof. by intros self a self' [= _ <-]. Qed.

Lemma reader_get_settings : reader get_settings.
Proof. by intros self a self' [= _ <-]. Qed.

Lemma reader_get_version : reader get_version.
Proof. by intros self a self' [= _ <-]. Qed.

Ltac sets_step :=
  lazymatch goal with
  | |- sets (bind (option_get _) _) _ =>
      eapply sets_read; [apply reader_option_get | intros ?]
  | |- sets (bind (get_safe _) _) _ =>
      eapply sets_read; [apply reader_get_safe | intros ?]
  | |- sets (bind (get_safe_default _ _) _) _ =>
      eapply sets_read; [apply reader_get_safe_default | intros ?]
  | |- sets (bind get_settings _) _ =>
      eapply sets_read; [apply reader_get_settings | intros ?]
  | |- sets (bind get_version _) _ =>
      eapply sets_read; [apply reader_get_version | intros ?]
  | |- sets (bind _ _) _ => eapply sets_bind; [|intros ?]
  | |- sets (when _ _) _ => eapply sets_when
  | |- sets (if _ then _ else _) _ => eapply sets_if
  | |- sets (match _ with Some _ => _ | None => _ end) _ =>
      eapply sets_option_match; [intros ?|]
  | |- sets (component_update _ _) _ => eapply sets_component_update
  | |- sets (set_property _ _) _ => eapply sets_set_property
  | |- sets (set_name _ _) _ => eapply sets_set_name
  | |- sets (ret _) _ => eapply sets_ret
  end.

Lemma package_info_meta self self' :
  package_info self = Ok () self' →
  CppInfo.properties (cpp_info self') =
    <["cmake_build_modules" := PList [_module_variables_file_rel_path]]>
      (<["cmake_target_aliases" := PList ["ceres"]]>
         (<["cmake_target_name" := PStr "Ceres::ceres"]>
            (<["cmake_file_name" := PStr "Ceres"]>
               (CppInfo.properties (cpp_info self))))) ∧
  CppInfo.names (cpp_info self') =
    <["cmake_find_package_multi" := "Ceres"]>
      (<["cmake_find_package" := "Ceres"]> (CppInfo.names (cpp_info self))).
Proof.
  assert (∃ f, sets package_info f ∧
               ∀ p n, f (p, n) =
                 (<["cmake_build_modules" :=
                      PList [_module_variables_file_rel_path]]>
                    (<["cmake_target_aliases" := PList ["ceres"]]>
                       (<["cmake_target_name" := PStr "Ceres::ceres"]>
                          (<["cmake_file_name" := PStr "Ceres"]> p))),
                  <["cmake_find_package_multi" := "Ceres"]>
                    (<["cmake_find_package" := "Ceres"]> n)))
    as (f & Hf & Heq).
  { eexists. split.
    - unfold package_info. repeat sets_step.
    - intros p n. reflexivity. }
  intros Hrun. apply Hf in Hrun. unfold meta in Hrun.
  rewrite Heq in Hrun. by injection Hrun as -> ->.
Qed.

Lemma apple_not_linux s :
  is_apple_os s = true → bool_decide (os s ∈ ["Linux"; "FreeBSD"]) = false.
Proof.
  unfold is_apple_os. intros Ha%bool_decide_eq_true.
  apply bool_decide_eq_false. intros Hl.
  repeat (apply elem_of_cons in Ha as [Ha|Ha];
          [rewrite Ha in Hl;
           repeat (apply elem_of_cons in Hl as [Hl|Hl]; [done|]);
           by apply elem_of_nil in Hl|]).
  by apply elem_of_nil in Ha.
Qed.

Lemma describe_resolved_more v s ov r :
  resolved v s ov r →
  ∃ d, package_info r = Ok () d ∧
       described r Component.fresh (ceres d) ∧
       described_more r Component.fresh (ceres d).
Proof.
  intros Hr.
  destruct (describe_resolved _ _ _ _ Hr) as (d & Hrun & _ & Hd).
  destruct (package_info_run_more r) as (d' & Hrun' & Hd').
  1-3: apply (resolved_present _ _ _ _ _ Hr); [not_listed | by eexists].
  rewrite Hrun in Hrun'. injection Hrun' as <-.
  exists d. rewrite <- (ceres_fresh r (resolved_cpp_info _ _ _ _ Hr)) at 2.
  done.
Qed.

(** X16. The Accelerate framework is linked exactly when the translation
    assigns ACCELERATESPARSE, that is on the Apple platforms from version
    2.0.0 on; no other framework is ever listed. *)
Theorem X16_accelerate_consistent (v : Version) (s : Settings)
    (ov : gmap string OptVal) :
  ∃ r tc d,
    resolve_options (instantiate v s ov) = Ok () r ∧
    generate r = Ok tc r ∧
    package_info r = Ok () d ∧
    Component.frameworks (ceres d) =
      (if is_apple_os s && ge v (V "2.0.0") then ["Accelerate"] else []) ∧
    (is_Some (tc !! "ACCELERATESPARSE") ↔
     "Accelerate" ∈ Component.frameworks (ceres d)).
Proof.
  destruct (resolve_options_run v s ov) as (r & Hres & Hr).
  destruct (describe_resolved_more _ _ _ _ Hr) as (d & Hrun & _ & Hd).
  exists r, (variables v s (options r)), d.
  split; [done|]. split; [by apply (generate_variables_resolved _ _ ov)|].
  split; [done|].
  destruct (variables_platform v s (options r)) as (-> & _).
  rewrite (described_frameworks _ _ _ Hd), (resolved_version _ _ _ _ Hr),
    (resolved_settings _ _ _ _ Hr), ge_2. simpl.
  destruct (is_apple_os s) eqn:Ha.
  - rewrite (apple_not_linux _ Ha). simpl.
    destruct (ge v (V "2.0.0")); simpl; split; try done.
    + split; [intros _; apply elem_of_cons; by left | by eexists].
    + split; [by intros [? ?] | by intros ?%elem_of_nil].
  - rewrite andb_false_r. simpl. split; [done|].
    rewrite andb_false_r. split; [by intros [? ?] | by intros ?%elem_of_nil].
Qed.

Lemma stdcpp_library_values s l :
  stdcpp_library s = Some l →
  l ∈ ["stdc++"; "c++"; "c++_shared"; "c++_static"].
Proof.
  unfold stdcpp_library. destruct (compiler_libcxx s); [|done].
  repeat case_match; intros [= <-]; apply list_elem_of_In; simpl; tauto.
Qed.

(** X17. The system libraries by platform and linkage: the math library
    m is listed exactly on Linux and FreeBSD, where it comes first; the
    C++ runtime library of the settings is listed, last, exactly when the
    library is static; a shared library lists none. *)
Theorem X17_system_libs (v : Version) (s : Settings)
    (ov : gmap string OptVal) :
  ∃ r d shared,
    resolve_options (instantiate v s ov) = Ok () r ∧
    package_info r = Ok () d ∧
    options r !! "shared" = Some shared ∧
    ("m" ∈ Component.system_libs (ceres d) ↔ os s ∈ ["Linux"; "FreeBSD"]) ∧
    (os s ∈ ["Linux"; "FreeBSD"] →
     head (Component.system_libs (ceres d)) = Some "m") ∧
    (∀ l, stdcpp_library s = Some l →
          (l ∈ Component.system_libs (ceres d) ↔ truthy shared = false) ∧
          (truthy shared = false →
           last (Component.system_libs (ceres d)) = Some l)).
Proof.
  destruct (resolve_options_run v s ov) as (r & Hres & Hr).
  destruct (describe_resolved _ _ _ _ Hr) as (d & Hrun & _ & Hd).
  destruct (resolved_present _ _ _ r "shared" Hr) as [sh Hsh];
    [not_listed | by eexists |].
  exists r, d, sh. repeat (split; [done|]).
  rewrite (described_system_libs _ _ _ Hd), (resolved_settings _ _ _ _ Hr),
    Hsh. simpl.
  set (threads := truthy (default OTrue (options r !! "use_CXX11_threads"))).
  split; [|split].
  - destruct (decide (os s ∈ ["Linux"; "FreeBSD"])) as [Hos|Hos].
    + rewrite (bool_decide_eq_true_2 _ Hos). split; [done|]. intros _.
      apply elem_of_cons. by left.
    + rewrite (bool_decide_eq_false_2 _ Hos). simpl. split; [|done].
      intros Hm. exfalso. destruct (truthy sh); [by apply elem_of_nil in Hm|].
      destruct (stdcpp_library s) as [l|] eqn:Hl;
        [|by apply elem_of_nil in Hm].
      apply stdcpp_library_values in Hl.
      destruct (String.eqb l ""); [by apply elem_of_nil in Hm|].
      apply list_elem_of_singleton in Hm as <-.
      repeat (apply elem_of_cons in Hl as [Hl|Hl]; [done|]).
      by apply elem_of_nil in Hl.
  - intros Hos. by rewrite (bool_decide_eq_true_2 _ Hos).
  - intros l Hl. rewrite Hl. pose proof (stdcpp_library_values _ _ Hl) as Hv.
    assert (String.eqb l "" = false) as ->.
    { repeat (apply elem_of_cons in Hv as [->|Hv]; [done|]).
      by apply elem_of_nil in Hv. }
    assert (l ≠ "m" ∧ l ≠ "pthread") as [Hm Hp].
    { repeat (apply elem_of_cons in Hv as [->|Hv]; [done|]).
      by apply elem_of_nil in Hv. }
    destruct (truthy sh); simpl.
    + rewrite app_nil_r. split; [|done]. split; [|done]. intros Hin.
      exfalso. destruct (bool_decide _); [|by apply elem_of_nil in Hin].
      apply elem_of_cons in Hin as [?|Hin]; [done|].
      destruct threads; [|by apply elem_of_nil in Hin].
      by apply list_elem_of_singleton in Hin.
    + split; [|intros _; apply last_snoc].
      split; [done|]. intros _. apply elem_of_app. right.
      by apply list_elem_of_singleton.
Qed.

(** X18. The integration metadata is the same for every configuration:
    the file name Ceres, the target Ceres::ceres and its alias ceres for
    the current generators, the name Ceres for the two legacy generators,
    and one and the same build-module file in the three places that
    declare it. *)
Theorem X18_integration_metadata (v : Version) (s : Settings)
    (ov : gmap string OptVal) :
  ∃ r d,
    resolve_options (instantiate v s ov) = Ok () r ∧
    package_info r = Ok () d ∧
    CppInfo.properties (cpp_info d) =
      list_to_map
        [("cmake_file_name", PStr "Ceres");
         ("cmake_target_name", PStr "Ceres::ceres");
         ("cmake_target_aliases", PList ["ceres"]);
         ("cmake_build_modules",
          PList ["lib/cmake/conan-official-ceres-solver-variables.cmake"])] ∧
    CppInfo.names (cpp_info d) =
      list_to_map [("cmake_find_package", "Ceres");
                   ("cmake_find_package_multi", "Ceres")] ∧
    Component.build_modules (ceres d) =
      list_to_map
        [("cmake_find_package",
          ["lib/cmake/conan-official-ceres-solver-variables.cmake"]);
         ("cmake_find_package_multi",
          ["lib/cmake/conan-official-ceres-solver-variables.cmake"])] ∧
    Component.properties (ceres d) =
      {["cmake_target_name" := PStr "Ceres::ceres"]}.
Proof.
  destruct (resolve_options_run v s ov) as (r & Hres & Hr).
  destruct (describe_resolved_more _ _ _ _ Hr) as (d & Hrun & _ & Hd).
  exists r, d. split; [done|]. split; [done|].
  destruct (package_info_meta _ _ Hrun) as [-> ->].
  rewrite (described_build_modules _ _ _ Hd),
    (described_properties _ _ _ Hd), (resolved_cpp_info _ _ _ _ Hr).
  repeat split; exact eq_refl.
Qed.

(** ** Package identity, build tools and the sequence of the methods *)

(** X19. [package_id] takes nothing but [use_gflags] out of the package
    identity: the settings and every other resolved option stay in
    [self.info], and the options of the instance itself are not
    touched. *)
Theorem X19_package_id_keeps_the_rest (v : Version) (s : Settings)
    (ov : gmap string OptVal) :
  ∃ r r',
    resolve_options (instantiate v s ov) = Ok () r ∧
    (init_info;; package_id) r = Ok () r' ∧
    Info.settings (info r') = s ∧
    (∀ k, k ≠ "use_gflags" → Info.options (info r') !! k = options r !! k) ∧
    options r' = options r ∧
    is_Some (options r' !! "use_gflags").
Proof.
  destruct (resolve_options_run v s ov) as (r & Hres & Hr).
  destruct (resolved_present _ _ _ r "use_gflags" Hr) as [g Hg];
    [not_listed | by eexists |].
  eexists r, _. split; [done|].
  split; [apply package_id_run; by eexists|]. simpl.
  split; [apply (resolved_settings _ _ _ _ Hr)|].
  split; [intros k Hk; by rewrite lookup_delete_ne|].
  split; [done | by eexists].
Qed.

Lemma build_requirements_run self :
  build_requirements self =
    Ok () {| version := version self; settings := settings self;
             options := options self; output := output self;
             requires := requires self;
             tool_requires :=
               tool_requires self ++
               (if ge (version self) (V "2.2.0") then ["cmake/[>=3.21]"]
                else []);
             info := info self; cpp_info := cpp_info self |}.
Proof.
  destruct self as [v s o out req treq inf ci].
  unfold build_requirements, bind, get_version, when, add_tool_requires, ret.
  simpl. destruct (ge v (V "2.2.0")); simpl; by rewrite ?app_nil_r.
Qed.

(** X20. A build tool is required exactly for the versions that require
    the language standard of 2017: cmake 3.21 or later from 2.2.0 on,
    and none below. *)
Theorem X20_build_requirements (v : Version) (s : Settings)
    (ov : gmap string OptVal) :
  ∃ r b std,
    resolve_options (instantiate v s ov) = Ok () r ∧
    build_requirements r = Ok () b ∧
    _min_cppstd r = Ok std r ∧
    tool_requires b =
      (if ge v (V "2.2.0") then ["cmake/[>=3.21]"] else []) ∧
    (std = "17" ↔ tool_requires b = ["cmake/[>=3.21]"]) ∧
    requires b = [] ∧ options b = options r.
Proof.
  destruct (resolve_options_run v s ov) as (r & Hres & Hr).
  eexists r, _, _. split; [done|].
  split; [apply build_requirements_run|].
  split; [apply min_cppstd_run|]. simpl.
  rewrite (resolved_version _ _ _ _ Hr), (resolved_requires _ _ _ _ Hr).
  assert (tool_requires r = []) as ->.
  { unfold resolve_options, bind in Hres.
    rewrite config_options_run in Hres
      by (intros k Hk; apply instantiate_declared;
          apply list_elem_of_In in Hk; simpl in Hk;
          destruct Hk as [<-|[<-|[<-|[<-|[]]]]]; by eexists).
    destruct (instantiate_declared v s ov "shared") as [sh Hsh];
      [by eexists|].
    destruct (instantiate_declared v s ov "use_gflags") as [g Hg];
      [by eexists|].
    erewrite configure_run in Hres; cycle 1.
    - simpl. rewrite options_after_config_kept; [exact Hsh | not_listed].
    - simpl. rewrite options_after_config_kept; [exact Hg | not_listed].
    - by injection Hres as <-. }
  unfold required_cppstd.
  destruct (ge v (V "2.2.0")), (ge v (V "2.0.0")); simpl;
    repeat split; done.
Qed.

Lemma requirements_frame self :
  is_Some (options self !! "use_glog") →
  ∃ q, requirements self = Ok () q ∧ frame self q.
Proof.
  intros [gl Hgl]. destruct self as [v s o out req treq inf ci]; simpl in *.
  unfold requirements, bind, when, add_requires, option_get, get_safe, ret;
    simpl.
  rewrite Hgl.
  destruct (truthy gl), (truthy_safe (o !! "use_TBB")) eqn:Ht; simpl;
    rewrite ?Ht; simpl; by eexists.
Qed.

Lemma bind_run {A B} (m : M A) (k : A → M B) self a self' :
  m self = Ok a self' → bind m k self = k a self'.
Proof. unfold bind. by intros ->. Qed.

(** X21. On every configuration the sequence of the methods either runs
    to the end or stops in [validate] with [ConanInvalidConfiguration]:
    no method ever reads or deletes an option that an earlier method has
    removed. *)
Theorem X21_only_validate_raises (v : Version) (s : Settings)
    (ov : gmap string OptVal) :
  ∃ d,
    create (instantiate v s ov) =
      if below_minimum (instantiate v s ov)
      then Raise ConanInvalidConfiguration
      else Ok () d.
Proof.
  destruct (resolve_options_run v s ov) as (r & Hres & Hr).
  assert (∀ x k, frame r x → k ∉ "fPIC" :: backend_options →
                 is_Some (default_options !! k) →
                 is_Some (options x !! k)) as Hpresent.
  { intros x k Hf Hk Hd. rewrite (frame_options _ _ Hf).
    by apply (resolved_present _ _ _ _ _ Hr). }
  destruct (requirements_frame r) as (q & Hreq & Hq);
    [apply Hpresent; [done | not_listed | by eexists]|].
  pose proof (build_requirements_run q) as Hbuild.
  set (b := {| version := version q |}) in Hbuild.
  assert (frame r b) as Hb by (destruct Hq; by split).
  pose proof (package_id_run b) as Hid.
  set (i := set_info _ b) in Hid.
  assert (frame r i) as Hi by (destruct Hb; by split).
  assert (below_minimum i = below_minimum (instantiate v s ov)) as Hbelow.
  { apply below_minimum_same_standard.
    - by rewrite (frame_settings _ _ Hi), (resolved_settings _ _ _ _ Hr).
    - by rewrite (frame_version _ _ Hi), (resolved_version _ _ _ _ Hr). }
  destruct (package_info_run i) as (d & Hrun & _).
  1-3: apply Hpresent; [done | not_listed | by eexists].
  exists d. unfold create.
  unfold resolve_options, bind in Hres.
  destruct (config_options (instantiate v s ov)) as [[] r0|] eqn:Hcfg;
    [|done].
  rewrite (bind_run _ _ _ _ _ Hcfg), (bind_run _ _ _ _ _ Hres),
    (bind_run _ _ _ _ _ Hreq), (bind_run _ _ _ _ _ Hbuild).
  change (init_info;; package_id;; validate;; generate;; package_info)
    with (bind init_info
            (λ _, bind package_id
                    (λ _, validate;; generate;; package_info))).
  assert (∀ (k : () → M ()) x y,
            bind init_info (λ _, package_id) x = Ok () y →
            bind init_info (λ _, bind package_id k) x = k () y) as Hassoc.
  { intros k x y. unfold bind.
    destruct (init_info x) as [[] x1|]; [|done].
    destruct (package_id x1) as [[] x2|]; [|done]. by intros [= ->]. }
  assert (is_Some (options b !! "use_gflags")) as Hg
    by (apply Hpresent; [done | not_listed | by eexists]).
  rewrite (Hassoc _ _ _ (Hid Hg)).
  unfold bind at 1. rewrite validate_run, Hbelow.
  destruct (below_minimum (instantiate v s ov)); [done|].
  unfold bind.
  rewrite generate_variables.
  - exact Hrun.
  - apply Hpresent; [done | not_listed | by eexists].
  - apply Hpresent; [done | not_listed | by eexists].
  - apply Hpresent; [done | not_listed | by eexists].
  - apply Hpresent; [done | not_listed | by eexists].
  - apply Hpresent; [done | not_listed | by eexists].
  - rewrite (frame_options _ _ Hi), (frame_version _ _ Hi).
    rewrite (resolved_version _ _ _ _ Hr), <- ge_2_0. intros Hge.
    rewrite !(resolved_lookup_backend _ _ _ _ _ Hr), Hge by listed.
    rewrite !lookup_union_is_Some. repeat split; right; by eexists.
Qed.

(** ** The package folder *)

Lemma lookup_rmdir dir (files : gmap string string) p :
  rmdir dir files !! p = if under dir p then None else files !! p.
Proof.
  unfold rmdir. destruct (under dir p) eqn:Hu.
  - apply map_lookup_filter_None. right. intros x _. simpl. congruence.
  - destruct (files !! p) as [x|] eqn:Hp.
    + by apply map_lookup_filter_Some.
    + apply map_lookup_filter_None. by left.
Qed.

(** A source folder whose license file is named in lower case. *)
Example package_license_lower_case :
  package "2.2.0" {["license" := "text"; "docs/LICENSE" := "other"]} ∅ ∅
    !! "licenses/license" = Some "text" ∧
  package "2.2.0" {["license" := "text"; "docs/LICENSE" := "other"]} ∅ ∅
    !! "licenses/docs/LICENSE" = None ∧
  package "2.2.0" {["license" := "text"; "docs/LICENSE" := "other"]} ∅ ∅
    !! "licenses/LICENSE" = None.
Proof. repeat split; by vm_compute. Qed.

Lemma lookup_copy_selected pattern dst (source files : gmap string string)
    name content :
  source !! name = Some content →
  lower name = lower pattern →
  copy pattern dst source files !! ((dst +:+ "/") +:+ name) = Some content.
Proof.
  intros Hs Hn. unfold copy. apply lookup_union_Some_l.
  rewrite (lookup_kmap (String.append (dst +:+ "/"))).
  by apply map_lookup_filter_Some.
Qed.

Lemma lookup_copy_other pattern dst (source files : gmap string string) p :
  (∀ name, p = (dst +:+ "/") +:+ name → lower name = lower pattern →
           source !! name = None) →
  copy pattern dst source files !! p = files !! p.
Proof.
  intros Hp. unfold copy. apply lookup_union_r.
  apply (lookup_kmap_None (String.append (dst +:+ "/"))).
  intros name ->. apply map_lookup_filter_None.
  destruct (source !! name) as [content|] eqn:Hs; [right|by left].
  intros x [= <-]. simpl. intros Hn. by rewrite (Hp name eq_refl Hn) in Hs.
Qed.

Lemma lookup_package version source installed files p :
  package version source installed files !! p =
    if decide (p = "lib/cmake/conan-official-ceres-solver-variables.cmake")
    then Some (module_variables_content version)
    else if under "lib/cmake" p || under "CMake" p then None
         else (installed ∪ copy "LICENSE" "licenses" source files) !! p.
Proof.
  unfold package, _create_cmake_module_variables, save, cmake_install.
  change (path_join ["lib"; "cmake"]) with "lib/cmake".
  change (path_join ["licenses"]) with "licenses".
  change _module_variables_file_rel_path
    with "lib/cmake/conan-official-ceres-solver-variables.cmake".
  case_decide as Hp; [subst; apply lookup_insert_eq|].
  rewrite lookup_insert_ne, !lookup_rmdir by done.
  by destruct (under "lib/cmake" p), (under "CMake" p).
Qed.

(** X22. After [package], the variables file is in the package at the
    path [lib/cmake/conan-official-ceres-solver-variables.cmake] with the
    generated text, it is the only file under [lib/cmake], nothing is
    left under [CMake], and every other file is as the install step and
    the copy of the license left it. *)
Theorem X22_package_layout (version : string)
    (source installed files : gmap string string) :
  let out := package version source installed files in
  out !! "lib/cmake/conan-official-ceres-solver-variables.cmake" =
    Some (module_variables_content version) ∧
  (∀ p, under "lib/cmake" p = true → is_Some (out !! p) →
        p = "lib/cmake/conan-official-ceres-solver-variables.cmake") ∧
  (∀ p, under "CMake" p = true → out !! p = None) ∧
  (∀ p, under "lib/cmake" p = false → under "CMake" p = false →
        out !! p =
          (installed ∪ copy "LICENSE" "licenses" source files) !! p).
Proof.
  intros out. unfold out. split; [by rewrite lookup_package|].
  split; [|split].
  - intros p Hp. rewrite lookup_package, Hp.
    case_decide; [done | by intros [? ?]].
  - intros p Hp. rewrite lookup_package, Hp, orb_true_r.
    by case_decide; [subst|].
  - intros p Hp Hp'. rewrite lookup_package, Hp, Hp'.
    by case_decide; [subst|].
Qed.

(** X23. Every file of the source folder itself that is named license,
    in whatever case of the letters, ends in the package under
    [licenses] by its own name, unless the install step writes that file
    itself; nothing else of the source folder is copied, and a source
    folder without such a file is no error. *)
Theorem X23_package_license (version : string)
    (source installed files : gmap string string) :
  let out := package version source installed files in
  (∀ name content,
     source !! name = Some content → lower name = "license" →
     installed !! ("licenses/" +:+ name) = None →
     out !! ("licenses/" +:+ name) = Some content) ∧
  (∀ p,
     (∀ name, p = "licenses/" +:+ name → lower name = "license" →
              source !! name = None) →
     p ≠ "lib/cmake/conan-official-ceres-solver-variables.cmake" →
     under "lib/cmake" p = false → under "CMake" p = false →
     out !! p = (installed ∪ files) !! p).
Proof.
  intros out. unfold out. split.
  - intros name content Hs Hn Hi. rewrite lookup_package.
    change (under "lib/cmake" ("licenses/" +:+ name)) with false.
    change (under "CMake" ("licenses/" +:+ name)) with false.
    rewrite decide_False by (intros [=]). cbn [orb].
    rewrite lookup_union_r by done.
    by apply (lookup_copy_selected "LICENSE" "licenses").
  - intros p Hp Hne Hu Hu'. rewrite lookup_package, Hu, Hu'.
    rewrite decide_False by done. cbn [orb].
    rewrite !lookup_union. f_equal.
    by apply (lookup_copy_other "LICENSE" "licenses").
Qed.

(** X24. Every build module the descriptor declares, for the current and
    for the legacy generators, is a file that [package] has put into the
    package. *)
Theorem X24_build_modules_exist (v : Version) (s : Settings)
    (ov : gmap string OptVal) (version : string)
    (source installed files : gmap string string) :
  ∃ r d,
    resolve_options (instantiate v s ov) = Ok () r ∧
    package_info r = Ok () d ∧
    (∀ modules m,
       CppInfo.properties (cpp_info d) !! "cmake_build_modules"
         = Some (PList modules) →
       m ∈ modules →
       is_Some (package version source installed files !! m)) ∧
    (∀ generator modules m,
       Component.build_modules (ceres d) !! generator = Some modules →
       m ∈ modules →
       is_Some (package version source installed files !! m)).
Proof.
  destruct (resolve_options_run v s ov) as (r & Hres & Hr).
  destruct (describe_resolved_more _ _ _ _ Hr) as (d & Hrun & _ & Hd).
  exists r, d. split; [done|]. split; [done|].
  destruct (package_info_meta _ _ Hrun) as [-> _].
  rewrite (described_build_modules _ _ _ Hd).
  assert (is_Some (package version source installed files
                     !! _module_variables_file_rel_path)) as Hfile.
  { rewrite lookup_package. by eexists. }
  split.
  - intros modules m. rewrite lookup_insert_eq. intros [= <-].
    by intros ->%list_elem_of_singleton.
  - intros generator modules m Hg Hm.
    apply lookup_insert_Some in Hg as [[_ <-]|[_ Hg]];
      [by apply list_elem_of_singleton in Hm as ->|].
    apply lookup_insert_Some in Hg as [[_ <-]|[_ Hg]];
      [by apply list_elem_of_singleton in Hm as ->|].
    done.
Qed.

(** ** The deprecated option *)

Lemma resolved_agree_but_gflags v s ov g1 g2 r1 r2 :
  resolved v s (<["use_gflags" := g1]> ov) r1 →
  resolved v s (<["use_gflags" := g2]> ov) r2 →
  ∀ k, k ≠ "use_gflags" → options r1 !! k = options r2 !! k.
Proof.
  intros Hr1 Hr2 k Hk.
  rewrite (resolved_options _ _ _ _ Hr1), (resolved_options _ _ _ _ Hr2).
  assert (∀ k', k' ≠ "use_gflags" →
            (<["use_gflags" := g1]> ov ∪ default_options) !! k' =
            (<["use_gflags" := g2]> ov ∪ default_options) !! k') as Hext.
  { intros k' Hk'. rewrite !lookup_union, !lookup_insert_ne; done. }
  apply options_after_configure_ext;
    apply options_after_config_ext; by apply Hext.
Qed.

Lemma component_eq (c c' : Component.t) :
  Component.libs c = Component.libs c' →
  Component.includedirs c = Component.includedirs c' →
  Component.system_libs c = Component.system_libs c' →
  Component.frameworks c = Component.frameworks c' →
  Component.requires c = Component.requires c' →
  Component.build_modules c = Component.build_modules c' →
  Component.properties c = Component.properties c' →
  c = c'.
Proof. destruct c, c'; simpl; congruence. Qed.

(** X25. The deprecated option [use_gflags] changes nothing but the
    warning: two configurations that differ only in its value declare
    the same requirements, get the same toolchain variables and emit the
    same component. *)
Theorem X25_use_gflags_has_no_effect (v : Version) (s : Settings)
    (ov : gmap string OptVal) (g1 g2 : OptVal) :
  ∃ r1 r2 q1 q2 tc d1 d2,
    resolve_options (instantiate v s (<["use_gflags" := g1]> ov))
      = Ok () r1 ∧
    resolve_options (instantiate v s (<["use_gflags" := g2]> ov))
      = Ok () r2 ∧
    requirements r1 = Ok () q1 ∧ requirements r2 = Ok () q2 ∧
    requires q1 = requires q2 ∧
    generate r1 = Ok tc r1 ∧ generate r2 = Ok tc r2 ∧
    package_info r1 = Ok () d1 ∧ package_info r2 = Ok () d2 ∧
    ceres d1 = ceres d2.
Proof.
  destruct (resolve_options_run v s (<["use_gflags" := g1]> ov))
    as (r1 & Hres1 & Hr1).
  destruct (resolve_options_run v s (<["use_gflags" := g2]> ov))
    as (r2 & Hres2 & Hr2).
  pose proof (resolved_agree_but_gflags _ _ _ _ _ _ _ Hr1 Hr2) as Hagree.
  destruct (resolved_present _ _ _ r1 "use_glog" Hr1) as [gl Hgl];
    [not_listed | by eexists |].
  assert (options r2 !! "use_glog" = Some gl) as Hgl2
    by (by rewrite <- Hagree).
  destruct (requirements_run r1 _ Hgl) as (q1 & Hreq1 & Hq1).
  destruct (requirements_run r2 _ Hgl2) as (q2 & Hreq2 & Hq2).
  destruct (describe_resolved_more _ _ _ _ Hr1) as (d1 & Hrun1 & Hd1 & Hm1).
  destruct (describe_resolved_more _ _ _ _ Hr2) as (d2 & Hrun2 & Hd2 & Hm2).
  exists r1, r2, q1, q2, (variables v s (options r1)), d1, d2.
  repeat (split; [done|]).
  split.
  { rewrite Hq1, Hq2, (resolved_requires _ _ _ _ Hr1),
      (resolved_requires _ _ _ _ Hr2). by rewrite (Hagree "use_TBB"). }
  split; [by apply (generate_variables_resolved _ _ _ _ Hr1)|].
  split.
  { rewrite (generate_variables_resolved _ _ _ _ Hr2). f_equal.
    unfold variables, option_value.
    by rewrite !(Hagree "use_glog"), !(Hagree "use_schur_specializations"),
      !(Hagree "use_custom_blas"), !(Hagree "use_eigen_sparse"),
      !(Hagree "use_cuda"), !(Hagree "use_CXX11"), !(Hagree "use_TBB"),
      !(Hagree "use_CXX11_threads"). }
  repeat (split; [done|]).
  destruct Hd1 as [L1 I1 S1 R1], Hd2 as [L2 I2 S2 R2],
    Hm1 as [F1 B1 P1], Hm2 as [F2 B2 P2].
  apply component_eq.
  - rewrite L1, L2, (resolved_settings _ _ _ _ Hr1),
      (resolved_settings _ _ _ _ Hr2). by rewrite (Hagree "use_cuda").
  - rewrite I1, I2. by rewrite (Hagree "use_glog").
  - rewrite S1, S2, (resolved_settings _ _ _ _ Hr1),
      (resolved_settings _ _ _ _ Hr2).
    by rewrite (Hagree "use_CXX11_threads"), (Hagree "shared").
  - rewrite F1, F2, (resolved_settings _ _ _ _ Hr1),
      (resolved_settings _ _ _ _ Hr2), (resolved_version _ _ _ _ Hr1),
      (resolved_version _ _ _ _ Hr2). done.
  - rewrite R1, R2. by rewrite (Hagree "use_glog"), (Hagree "use_TBB").
  - by rewrite B1, B2.
  - by rewrite P1, P2.
Qed.
